(** * streamdeck_ui.gui: the display dimmer and the key-press dispatcher

    A shallow embedding of [src/streamdeck_ui/gui.py]:
    - the class [Dimmer] (lines 64-149), a timer-driven state machine that
      fades the display after a period of inactivity;
    - [_replace_special_keys] (lines 206-214) and [handle_keypress]
      (lines 217-296), the dispatcher that runs the actions bound to a key.

    Python integers are [Z], Python strings are [string] (a sequence of
    code points below 256), Python floats are the binary64 numbers of
    [PrimFloat], the dictionary [dimmers] is a [gmap]. *)

From Stdlib Require Import ZArith Floats Ascii String.
From stdpp Require Import base option list gmap strings.

Local Open Scope Z_scope.

(** ** QTimer *)

(** The three facts about a [QTimer] the dimmer relies on: whether it is
    running, whether it is single-shot, and its interval in milliseconds.
    Both timers of a dimmer are connected to [change_brightness]. A timer
    object is referenced by one attribute of one dimmer only, so it is held
    by value; overwriting the attribute drops the last reference to the old
    object, which destroys it. *)
Module QTimer.

Record t : Type := mk {
  isActive : bool;
  singleShot : bool;
  interval : Z
}.

(** [QTimer()] *)
Definition new : t :=
  {| isActive := false; singleShot := false; interval := 0 |}.

(** [timer.setSingleShot(b)] *)
Definition setSingleShot (b : bool) (q : t) : t :=
  {| isActive := isActive q; singleShot := b; interval := interval q |}.

(** [timer.start(msec)], for a call that returns: see [fits]. *)
Definition start (msec : Z) (q : t) : t :=
  {| isActive := true; singleShot := singleShot q; interval := msec |}.

(** [start] takes a C [int]. PySide2 raises [OverflowError] for a Python
    integer outside of its range, before the timer is touched; [fits]
    tells whether [start(msec)] returns. *)
Definition INT_MIN : Z := -2147483648.

Definition INT_MAX : Z := 2147483647.

Definition fits (msec : Z) : bool := (INT_MIN <=? msec) && (msec <=? INT_MAX).

(** [timer.stop()] *)
Definition stop (q : t) : t :=
  {| isActive := false; singleShot := singleShot q; interval := interval q |}.

(** The timer that [reset] and [change_brightness] build:
    [QTimer()], [setSingleShot(True)], [start(msec)]. *)
Definition armed (msec : Z) : t := start msec (setSingleShot true new).

End QTimer.

(** ** Dimmer *)

Module Dimmer.

(** The attributes of a [Dimmer] instance. [stopped], [dimmer_brightness],
    [timer] and [change_timer] are the private attributes [__stopped],
    [__dimmer_brightness], [__timer] and [__change_timer]. The brightness
    callback is not part of the state: every method returns, next to the
    new state, the list of levels it passed to the callback, in call
    order. The callback has type [Callable[[int], None]] and is taken to
    return. *)
Record t : Type := mk {
  timeout : Z;
  brightness : Z;
  stopped : bool;
  dimmer_brightness : Z;
  timer : option QTimer.t;
  change_timer : option QTimer.t
}.

(** [Dimmer(timeout, brightness, brightness_callback)]: the class
    attributes give the initial values of the private attributes. *)
Definition new (timeout brightness : Z) : t :=
  {| timeout := timeout;
     brightness := brightness;
     stopped := false;
     dimmer_brightness := -1;
     timer := None;
     change_timer := None |}.

(** [if tm: tm.stop()], for an attribute that is [None] or a timer. *)
Definition stop_timer (tm : option QTimer.t) : option QTimer.t :=
  QTimer.stop <$> tm.

(** [tm and tm.isActive()] *)
Definition running (tm : option QTimer.t) : bool :=
  match tm with
  | Some q => QTimer.isActive q
  | None => false
  end.

(** [Dimmer.stop] (lines 84-95). *)
Definition stop (self : t) : t * list Z :=
  ({| timeout := timeout self;
      brightness := brightness self;
      stopped := true;
      dimmer_brightness := brightness self;
      timer := stop_timer (timer self);
      change_timer := stop_timer (change_timer self) |},
   [brightness self]).

(** [Dimmer.reset] (lines 97-119): the returned boolean, the new state and
    the callback calls. *)
Definition reset (self : t) : bool * t * list Z :=
  let tm := stop_timer (timer self) in
  let ctm := stop_timer (change_timer self) in
  let tm :=
    if bool_decide (timeout self ≠ 0)
    then Some (QTimer.armed (timeout self * 1000))
    else tm in
  if bool_decide (dimmer_brightness self ≠ brightness self) then
    (true,
     {| timeout := timeout self;
        brightness := brightness self;
        stopped := false;
        dimmer_brightness := brightness self;
        timer := tm;
        change_timer := ctm |},
     [brightness self])
  else
    (false,
     {| timeout := timeout self;
        brightness := brightness self;
        stopped := false;
        dimmer_brightness := dimmer_brightness self;
        timer := tm;
        change_timer := ctm |},
     []).

(** Whether [reset] raises instead of returning: line 112 calls
    [start(self.timeout * 1000)] when the timeout is not 0, which raises
    [OverflowError] when the milliseconds do not fit a C [int], that is
    for a timeout above 2147483 s. This is before the callback is called.
    [reset] above is what a [reset()] that returns does. *)
Definition reset_raises (self : t) : bool :=
  bool_decide (timeout self ≠ 0) && negb (QTimer.fits (timeout self * 1000)).

(** [Dimmer.change_brightness] (lines 139-149). *)
Definition change_brightness (self : t) : t * list Z :=
  if bool_decide (dimmer_brightness self ≠ 0) then
    ({| timeout := timeout self;
        brightness := brightness self;
        stopped := stopped self;
        dimmer_brightness := dimmer_brightness self - 1;
        timer := timer self;
        change_timer := Some (QTimer.armed 10) |},
     [dimmer_brightness self - 1])
  else
    ({| timeout := timeout self;
        brightness := brightness self;
        stopped := stopped self;
        dimmer_brightness := dimmer_brightness self;
        timer := timer self;
        change_timer := None |},
     []).

(** [self.__timer.stop()] inside [dim]. *)
Definition stop_idle (self : t) : t :=
  {| timeout := timeout self;
     brightness := brightness self;
     stopped := stopped self;
     dimmer_brightness := dimmer_brightness self;
     timer := stop_timer (timer self);
     change_timer := change_timer self |}.

(** [Dimmer.dim] (lines 121-137). *)
Definition dim (toggle : bool) (self : t) : t * list Z :=
  if stopped self then (self, [])
  else if toggle && bool_decide (dimmer_brightness self = 0) then
    let '(_, self', out) := reset self in (self', out)
  else if running (timer self) then
    let self' := stop_idle self in
    if bool_decide (change_timer self' = None)
       && bool_decide (dimmer_brightness self' ≠ 0)
    then change_brightness self'
    else (self', [])
  else (self, []).

(** *** Timer expiry

    The event loop calls the slot of a running timer when its interval has
    elapsed; a single-shot timer is no longer running when its slot is
    called. Both slots are [change_brightness]. *)

(** The idle timer [__timer] expires. *)
Definition idle_timeout (self : t) : option (t * list Z) :=
  if running (timer self) then
    Some (change_brightness
            {| timeout := timeout self;
               brightness := brightness self;
               stopped := stopped self;
               dimmer_brightness := dimmer_brightness self;
               timer := stop_timer (timer self);
               change_timer := change_timer self |})
  else None.

(** The ramp timer [__change_timer] expires: one ramp tick. *)
Definition ramp_tick (self : t) : option (t * list Z) :=
  if running (change_timer self) then
    Some (change_brightness
            {| timeout := timeout self;
               brightness := brightness self;
               stopped := stopped self;
               dimmer_brightness := dimmer_brightness self;
               timer := timer self;
               change_timer := stop_timer (change_timer self) |})
  else None.

(** The operations on a dimmer: the three public methods and the two
    timer expiries. *)
Inductive op : Type :=
  | Reset
  | Stop
  | Dim (toggle : bool)
  | IdleTimeout
  | RampTick.

(** One operation; [None] when the operation is the expiry of a timer that
    is not running. *)
Definition exec (o : op) (self : t) : option (t * list Z) :=
  match o with
  | Reset => let '(_, self', out) := reset self in Some (self', out)
  | Stop => Some (stop self)
  | Dim toggle => Some (dim toggle self)
  | IdleTimeout => idle_timeout self
  | RampTick => ramp_tick self
  end.

(** A sequence of operations, with all callback calls in order. *)
Fixpoint run (os : list op) (self : t) : option (t * list Z) :=
  match os with
  | [] => Some (self, [])
  | o :: os' =>
      match exec o self with
      | Some (self', out) =>
          match run os' self' with
          | Some (self'', out') => Some (self'', out ++ out')
          | None => None
          end
      | None => None
      end
  end.

End Dimmer.

(** ** Python strings *)

Local Open Scope string_scope.

(** Code points of a string and back. *)
Definition code (c : ascii) : N := Ascii.N_of_ascii c.

(** [c.isspace()] for a code point below 256: the ASCII white space
    9-13 and 28-32, and the Latin-1 characters 0x85 and 0xa0. *)
Definition isspace (c : ascii) : bool :=
  let n := code c in
  ((9 <=? n) && (n <=? 13) || (28 <=? n) && (n <=? 32)
   || (n =? 133) || (n =? 160))%N.

(** [c.lower()] for a code point below 256: A-Z, and the Latin-1 capital
    letters 0xc0-0xde without the multiplication sign 0xd7. *)
Definition lower_char (c : ascii) : ascii :=
  let n := code c in
  if ((65 <=? n) && (n <=? 90)
      || (192 <=? n) && (n <=? 222) && negb (n =? 215))%N
  then Ascii.ascii_of_N (n + 32)
  else c.

(** [s.lower()] *)
Fixpoint lower (s : string) : string :=
  match s with
  | EmptyString => EmptyString
  | String c s' => String (lower_char c) (lower s')
  end.

(** [s.lstrip()] *)
Fixpoint lstrip (s : string) : string :=
  match s with
  | EmptyString => EmptyString
  | String c s' => if isspace c then lstrip s' else s
  end.

(** [s.strip()] *)
Definition strip (s : string) : string :=
  String.rev (lstrip (String.rev (lstrip s))).

(** [s.replace(" ", "")] *)
Fixpoint remove_spaces (s : string) : string :=
  match s with
  | EmptyString => EmptyString
  | String c s' =>
      if Ascii.eqb c " " then remove_spaces s'
      else String c (remove_spaces s')
  end.

(** [s.split(sep)] for a separator of one character: the pieces between
    the separators, so that a string without separator (the empty string
    too) gives one piece. *)
Fixpoint split (sep : ascii) (s : string) : list string :=
  match s with
  | EmptyString => [EmptyString]
  | String c s' =>
      if Ascii.eqb c sep then EmptyString :: split sep s'
      else
        match split sep s' with
        | piece :: pieces => String c piece :: pieces
        | [] => [String c EmptyString]
        end
  end.

(** [s.startswith(p)] *)
Definition startswith (p s : string) : bool := String.prefix p s.

(** [s.split(sep, 1)[1]]: what follows the first occurrence of [sep];
    [None] stands for the [IndexError] when [sep] does not occur. *)
Fixpoint after_first (sep s : string) : option string :=
  if startswith sep s then
    Some (String.substring (String.length sep)
            (String.length s - String.length sep) s)
  else
    match s with
    | EmptyString => None
    | String _ s' => after_first sep s'
    end.

(** Truth value of a string: [if s:]. *)
Definition nonempty (s : string) : bool :=
  match s with
  | EmptyString => false
  | String _ _ => true
  end.

(** ** Values and effects of the dispatcher *)

(** A number held by [sleep_time]: the integer literal [0] or a float. *)
Inductive pynum : Type :=
  | PInt (z : Z)
  | PFloat (f : float).

(** Truth value of a number: [if sleep_time:]. Both zeros of the floats
    are false, a NaN is true. *)
Definition truthy (x : pynum) : bool :=
  match x with
  | PInt z => bool_decide (z ≠ 0%Z)
  | PFloat f => negb (PrimFloat.eqb f 0%float)
  end.

(** An element of [section_keys]: a string, or another attribute of
    pynput's [Key] (a member of the enumeration), named by its
    attribute name. *)
Inductive keyval : Type :=
  | KStr (s : string)
  | KAttr (name : string).

(** [isinstance(key_name, str) and key_name.startswith("delay")] *)
Definition is_delay (k : keyval) : bool :=
  match k with
  | KStr s => startswith "delay" s
  | KAttr _ => false
  end.

(** What [handle_keypress] prints. *)
Inductive report : Type :=
  | CommandFailed (command : string)
  | BadSleepTime (arg : string)
  | SleepFailed (t : pynum)
  | PressFailed (k : keyval)
  | ReleaseFailed (k : keyval)
  | WriteFailed
  | BrightnessFailed.

(** The effects of the dispatcher on its collaborators, as calls:
    [dimmers[deck_id].reset()] and the calls of the brightness callback
    that it makes, [Popen(shlex.split(command))], the [press], [release]
    and [type] of the keyboard controller, [time.sleep], the functions of
    [streamdeck_ui.api] that act on a deck, and [print]. *)
Inductive event : Type :=
  | DimmerReset (deck_id : string)
  | Callback (deck_id : string) (level : Z)
  | Popen (command : string)
  | Press (k : keyval)
  | Release (k : keyval)
  | Sleep (t : pynum)
  | TypeText (text : string)
  | ApiChangeBrightness (deck_id : string) (amount : Z)
  | ApiGetBrightness (deck_id : string)
  | ApiSetPage (deck_id : string) (page : Z)
  | Print (r : report).

(** What the configuration binds to a button, as the getters of
    [streamdeck_ui.api] return it: [get_button_command], [get_button_keys],
    [get_button_write], [get_button_change_brightness],
    [get_button_switch_page] and [get_target_device]. *)
Record ButtonAction : Type := mkAction {
  command : string;
  keys : string;
  write : string;
  brightness_change : Z;
  switch_page : Z;
  target_device : string
}.

(** The state the dispatcher reads and writes: the module-level dictionary
    [dimmers], the state held by [streamdeck_ui.api] (the active page and
    the brightness of each deck, the button configuration), the calls made
    so far, and the behaviour of the collaborators: [faults n e] tells
    whether the call [e], made as the [n]-th call to a collaborator,
    raises. *)
Record Sys : Type := mkSys {
  dimmers : gmap string Dimmer.t;
  pages : string -> Z;
  levels : string -> Z;
  buttons : string -> Z -> Z -> ButtonAction;
  faults : nat -> event -> bool;
  clock : nat;
  trace : list event
}.

(** How a piece of Python code ends: it returns a value or raises. *)
Inductive outcome (A : Type) : Type :=
  | Returned (a : A)
  | Raised.
Arguments Returned {A} a.
Arguments Raised {A}.

(** Code that reads and writes the state and may raise. Writes made before
    an exception stay. *)
Definition M (A : Type) : Type := Sys -> outcome A * Sys.

Definition ret {A} (a : A) : M A := fun s => (Returned a, s).

Definition bind {A B} (m : M A) (k : A -> M B) : M B :=
  fun s =>
    match m s with
    | (Returned a, s') => k a s'
    | (Raised, s') => (Raised, s')
    end.

Definition raise {A} : M A := fun s => (Raised, s).

(** [try: body / except Exception: handler] *)
Definition try_except {A} (body handler : M A) : M A :=
  fun s =>
    match body s with
    | (Returned a, s') => (Returned a, s')
    | (Raised, s') => handler s'
    end.

Declare Scope py_scope.
Delimit Scope py_scope with py.
Notation "x <- m ;; k" := (bind m (fun x => k))
  (at level 100, m at next level, right associativity) : py_scope.
Notation "m ;; k" := (bind m (fun _ => k))
  (at level 100, right associativity) : py_scope.
Local Open Scope py_scope.

(** [for x in xs: body x] *)
Fixpoint for_each {A} (xs : list A) (body : A -> M unit) : M unit :=
  match xs with
  | [] => ret tt
  | x :: xs' => body x ;; for_each xs' body
  end.

Definition get : M Sys := fun s => (Returned s, s).

(** Record a call without letting it fail. *)
Definition emit (e : event) : M unit :=
  fun s =>
    (Returned tt,
     {| dimmers := dimmers s; pages := pages s; levels := levels s;
        buttons := buttons s; faults := faults s; clock := clock s;
        trace := trace s ++ [e] |}).

(** A call to a collaborator: it is recorded, and it raises when the
    collaborator fails. *)
Definition call (e : event) : M unit :=
  fun s =>
    (if faults s (clock s) e then Raised else Returned tt,
     {| dimmers := dimmers s; pages := pages s; levels := levels s;
        buttons := buttons s; faults := faults s; clock := S (clock s);
        trace := trace s ++ [e] |}).

(** [print(...)] *)
Definition print (r : report) : M unit := emit (Print r).

Definition set_dimmers (ds : gmap string Dimmer.t) : M unit :=
  fun s =>
    (Returned tt,
     {| dimmers := ds; pages := pages s; levels := levels s;
        buttons := buttons s; faults := faults s; clock := clock s;
        trace := trace s |}).

Definition set_pages (ps : string -> Z) : M unit :=
  fun s =>
    (Returned tt,
     {| dimmers := dimmers s; pages := ps; levels := levels s;
        buttons := buttons s; faults := faults s; clock := clock s;
        trace := trace s |}).

Definition set_levels (ls : string -> Z) : M unit :=
  fun s =>
    (Returned tt,
     {| dimmers := dimmers s; pages := pages s; levels := ls;
        buttons := buttons s; faults := faults s; clock := clock s;
        trace := trace s |}).

(** [dimmers[deck_id]]: a [KeyError] when the deck has no dimmer. *)
Definition the_dimmer (deck_id : string) : M Dimmer.t :=
  s <- get ;;
  match dimmers s !! deck_id with
  | Some d => ret d
  | None => raise
  end.

(** The brightness callback of the dimmer of [deck_id],
    [partial(change_brightness, deck_id)], called with each level. *)
Definition callbacks (deck_id : string) (levels : list Z) : M unit :=
  for_each levels (fun level => emit (Callback deck_id level)).

(** [dimmers[deck_id].reset()] *)
Definition dimmer_reset (deck_id : string) : M bool :=
  d <- the_dimmer deck_id ;;
  emit (DimmerReset deck_id) ;;
  let '(woke, d', out) := Dimmer.reset d in
  s <- get ;;
  set_dimmers (<[deck_id := d']> (dimmers s)) ;;
  callbacks deck_id out ;;
  ret woke.

(** [dimmers[deck_id].brightness = value] *)
Definition dimmer_set_brightness (deck_id : string) (value : Z) : M unit :=
  d <- the_dimmer deck_id ;;
  s <- get ;;
  set_dimmers
    (<[deck_id := Dimmer.mk (Dimmer.timeout d) value (Dimmer.stopped d)
                    (Dimmer.dimmer_brightness d) (Dimmer.timer d)
                    (Dimmer.change_timer d)]> (dimmers s)).

(** ** The collaborators in [streamdeck_ui.api] *)

(** [f] with the value at [k] replaced. *)
Definition update (f : string -> Z) (k : string) (v : Z) : string -> Z :=
  fun k' => if bool_decide (k' = k) then v else f k'.

(** [max(min(level, 100), 0)] *)
Definition clamp (level : Z) : Z := Z.max (Z.min level 100) 0.

(** [api.get_page(deck_id)] *)
Definition api_get_page (deck_id : string) : M Z :=
  s <- get ;; ret (pages s deck_id).

(** The getters [api.get_button_command] ... [api.get_target_device]: the
    action bound to a key of a page. *)
Definition api_get_button (deck_id : string) (page key : Z) : M ButtonAction :=
  s <- get ;; ret (buttons s deck_id page key).

(** Modelled from the spec: [api.change_brightness(deck_id, amount)], whose
    body is not in [gui.py]: it computes the new brightness, clamps it to
    0-100 and applies it to the device. *)
Definition api_change_brightness (deck_id : string) (amount : Z) : M unit :=
  call (ApiChangeBrightness deck_id amount) ;;
  s <- get ;;
  set_levels (update (levels s) deck_id (clamp (levels s deck_id + amount))).

(** Modelled from the spec: [api.get_brightness(deck_id)], whose body is
    not in [gui.py]: the level of the deck, 0-100. *)
Definition api_get_brightness (deck_id : string) : M Z :=
  call (ApiGetBrightness deck_id) ;;
  s <- get ;; ret (levels s deck_id).

(** Modelled from the spec: [api.set_page(deck_id, page)], whose body is
    not in [gui.py]: it sets the active page index of the deck. What a
    call that raises has done to the pages is not known; here it raises
    before it writes, and the theorems on the dispatcher tell the pages
    only after a call that returned. *)
Definition api_set_page (deck_id : string) (page : Z) : M unit :=
  call (ApiSetPage deck_id page) ;;
  s <- get ;;
  set_pages (update (pages s) deck_id page).

(** ** The dispatcher *)

Section Dispatcher.

(** [float(s)] of Python: the float a string denotes, [None] when it
    raises [ValueError]. *)
Variable py_float : string -> option float.

(** [getattr(Key, name)] of pynput's [Key]: the attribute of that name,
    [None] when there is none. *)
Variable Key_getattr : string -> option keyval.

(** [_replace_special_keys] (lines 206-214). *)
Definition _replace_special_keys (key : string) : string :=
  if String.eqb (lower key) "plus" then "+"
  else if String.eqb (lower key) "comma" then ","
  else if startswith "delay" (lower key) then lower key
  else key.

(** [getattr(Key, key_name.lower(), key_name)] (line 243). *)
Definition translate (key_name : string) : keyval :=
  match Key_getattr (lower key_name) with
  | Some v => v
  | None => KStr key_name
  end.

(** [section_keys] of a section, after both list comprehensions
    (lines 239-244). *)
Definition section_keys (section : string) : list keyval :=
  translate <$> (_replace_special_keys <$> split "+" section).

(** Lines 248-257: the sleep time of a delay token. *)
Definition sleep_time_of (key_name : string) : M pynum :=
  match after_first "delay" key_name with
  | None => raise
  | Some sleep_time_arg =>
      if nonempty sleep_time_arg then
        match py_float sleep_time_arg with
        | Some f => ret (PFloat f)
        | None => print (BadSleepTime sleep_time_arg) ;; ret (PInt 0)
        end
      else ret (PFloat 0.5)
  end.

(** Lines 259-263. *)
Definition sleep (sleep_time : pynum) : M unit :=
  if truthy sleep_time then
    try_except (call (Sleep sleep_time)) (print (SleepFailed sleep_time))
  else ret tt.

(** Lines 265-268. *)
Definition press (key_name : keyval) : M unit :=
  try_except (call (Press key_name)) (print (PressFailed key_name)).

(** Lines 272-275. *)
Definition release (key_name : keyval) : M unit :=
  try_except (call (Release key_name)) (print (ReleaseFailed key_name)).

(** The body of the first loop over [section_keys] (lines 247-268). *)
Definition press_or_sleep (key_name : keyval) : M unit :=
  match key_name with
  | KStr s =>
      if startswith "delay" s then
        sleep_time <- sleep_time_of s ;; sleep sleep_time
      else press key_name
  | KAttr _ => press key_name
  end.

(** The body of the second loop over [section_keys] (lines 271-275). *)
Definition release_unless_delay (key_name : keyval) : M unit :=
  if negb (is_delay key_name) then release key_name else ret tt.

(** The body of the loop over the sections (lines 237-275). *)
Definition run_section (section : string) : M unit :=
  let section_keys := section_keys section in
  for_each section_keys press_or_sleep ;;
  for_each section_keys release_unless_delay.

(** The sections of a macro: [keys.strip().replace(" ", "").split(",")]. *)
Definition sections (keys : string) : list string :=
  split "," (remove_spaces (strip keys)).

(** Lines 226-231. *)
Definition run_command (command : string) : M unit :=
  if nonempty command then
    try_except (call (Popen command)) (print (CommandFailed command))
  else ret tt.

(** Lines 233-275. *)
Definition run_keys (keys : string) : M unit :=
  if nonempty keys then for_each (sections keys) run_section
  else ret tt.

(** Lines 277-282. *)
Definition run_write (write : string) : M unit :=
  if nonempty write then
    try_except (call (TypeText write)) (print WriteFailed)
  else ret tt.

(** Lines 284-291. *)
Definition run_brightness (deck_id : string) (brightness_change : Z) : M unit :=
  if bool_decide (brightness_change ≠ 0%Z) then
    try_except
      (api_change_brightness deck_id brightness_change ;;
       level <- api_get_brightness deck_id ;;
       dimmer_set_brightness deck_id level ;;
       _ <- dimmer_reset deck_id ;;
       ret tt)
      (print BrightnessFailed)
  else ret tt.

(** Lines 293-296. *)
Definition run_switch_page (target_device : string) (switch_page : Z) : M unit :=
  if bool_decide (switch_page ≠ 0%Z) then
    api_set_page target_device (switch_page - 1)
  else ret tt.

(** [handle_keypress] (lines 217-296). [Controller()] only builds the
    keyboard object whose [press], [release] and [type] are called
    later. *)
Definition handle_keypress (deck_id : string) (key : Z) (state : bool) : M unit :=
  if state then
    woke <- dimmer_reset deck_id ;;
    if woke : bool then ret tt
    else
      page <- api_get_page deck_id ;;
      a <- api_get_button deck_id page key ;;
      run_command (command a) ;;
      a <- api_get_button deck_id page key ;;
      run_keys (keys a) ;;
      a <- api_get_button deck_id page key ;;
      run_write (write a) ;;
      a <- api_get_button deck_id page key ;;
      run_brightness deck_id (brightness_change a) ;;
      a <- api_get_button deck_id page key ;;
      run_switch_page (target_device a) (switch_page a)
  else ret tt.

End Dispatcher.

(** ** The dimmers in the rest of [gui.py] *)

(** Outside the class the two public attributes of a dimmer are assigned
    directly: [dimmers[deck_id].brightness = value] (lines 288 and 460)
    and [dimmers[deck_id].timeout = value] (line 732). *)
Definition assign_brightness (value : Z) (self : Dimmer.t) : Dimmer.t :=
  Dimmer.mk (Dimmer.timeout self) value (Dimmer.stopped self)
    (Dimmer.dimmer_brightness self) (Dimmer.timer self)
    (Dimmer.change_timer self).

Definition assign_timeout (value : Z) (self : Dimmer.t) : Dimmer.t :=
  Dimmer.mk value (Dimmer.brightness self) (Dimmer.stopped self)
    (Dimmer.dimmer_brightness self) (Dimmer.timer self)
    (Dimmer.change_timer self).

(** What the program does with a dimmer: an operation of the class or
    one of the two assignments. *)
Inductive use : Type :=
  | Call (o : Dimmer.op)
  | AssignBrightness (value : Z)
  | AssignTimeout (value : Z).

Definition use_exec (u : use) (self : Dimmer.t) : option (Dimmer.t * list Z) :=
  match u with
  | Call o => Dimmer.exec o self
  | AssignBrightness value => Some (assign_brightness value self, [])
  | AssignTimeout value => Some (assign_timeout value self, [])
  end.

(** A sequence of uses, with all callback calls in order. *)
Fixpoint use_run (us : list use) (self : Dimmer.t)
    : option (Dimmer.t * list Z) :=
  match us with
  | [] => Some (self, [])
  | u :: us' =>
      match use_exec u self with
      | Some (self', out) =>
          match use_run us' self' with
          | Some (self'', out') => Some (self'', (out ++ out')%list)
          | None => None
          end
      | None => None
      end
  end.

(** [dim_all_displays] (lines 742-744): [dim(True)] on every dimmer. A
    Python dictionary is iterated in insertion order, which the finite
    map does not keep: the keys of [dimmers], in that order, are the
    argument [deck_ids]. The callback calls of each dimmer are recorded
    as events of its deck. *)
Definition dim_all_displays (deck_ids : list string) : M unit :=
  for_each deck_ids
    (fun deck_id =>
       d <- the_dimmer deck_id ;;
       let '(d', out) := Dimmer.dim true d in
       s <- get ;;
       set_dimmers (<[deck_id := d']> (dimmers s)) ;;
       callbacks deck_id out).

(** The body of the loop over the opened decks in [start]
    (lines 824-832), without the two entries it adds to the window's
    lists: the dimmer of the deck is built from the stored display
    timeout and brightness and reset at once. [display_timeout] is what
    [api.get_display_timeout(deck_id)] returns; this is the loop body for
    a timeout with which [reset] returns ([Dimmer.reset_raises]), with
    another one [start] is aborted by the [OverflowError]. *)
Definition open_dimmer (display_timeout : Z) (deck_id : string) : M unit :=
  level <- api_get_brightness deck_id ;;
  s <- get ;;
  set_dimmers (<[deck_id := Dimmer.new display_timeout level]> (dimmers s)) ;;
  _ <- dimmer_reset deck_id ;;
  ret tt.

(** ** MainWindow *)

(** The main window (lines 634-658): the attribute [window_shown] and,
    of the Qt window, whether it is visible. Each method returns the new
    state and the calls it made on the window and on the event. *)
Module MainWindow.

Record t : Type := mk {
  window_shown : bool;
  visible : bool
}.

Inductive call : Type :=
  | Hide
  | Show
  | ActivateWindow
  | Raise
  | IgnoreEvent.

(** [MainWindow()]: a new window is not visible; [__init__] sets
    [window_shown] to [True]. *)
Definition new : t := {| window_shown := true; visible := false |}.

(** [self.show()] *)
Definition show (self : t) : t :=
  {| window_shown := window_shown self; visible := true |}.

(** [self.hide()] *)
Definition hide (self : t) : t :=
  {| window_shown := window_shown self; visible := false |}.

Definition set_window_shown (b : bool) (self : t) : t :=
  {| window_shown := b; visible := visible self |}.

(** [closeEvent] (lines 641-644). *)
Definition closeEvent (self : t) : t * list call :=
  (hide (set_window_shown false self), [Hide; IgnoreEvent]).

(** [bring_to_top] (lines 654-658). *)
Definition bring_to_top (self : t) : t * list call :=
  (set_window_shown true (show self), [Show; ActivateWindow; Raise]).

(** [systray_clicked] (lines 646-652). *)
Definition systray_clicked (self : t) : t * list call :=
  if window_shown self then (set_window_shown false (hide self), [Hide])
  else bring_to_top self.

(** The window as [start] leaves it (lines 761 and 865-866): built, and
    shown unless the program runs without UI. *)
Definition started (show_ui : bool) : t :=
  if show_ui then show new else new.

(** What can happen to the window afterwards. *)
Inductive op : Type :=
  | CloseEvent
  | SystrayClicked
  | BringToTop.

Definition exec (o : op) (self : t) : t * list call :=
  match o with
  | CloseEvent => closeEvent self
  | SystrayClicked => systray_clicked self
  | BringToTop => bring_to_top self
  end.

Fixpoint run (os : list op) (self : t) : t :=
  match os with
  | [] => self
  | o :: os' => run os' (exec o self).1
  end.

End MainWindow.

(** ** The grid of buttons *)

(** The indices [build_buttons] (lines 499-533) gives to the buttons of a
    deck with [rows] rows and [columns] columns, and the rows it lays them
    out in: both loops run over a [range], the counter [index] goes
    through all of them. The state of the loops is the counter, the list
    [buttons] and the rows laid out so far; a button is its index. *)
Definition build_row (columns : nat) (index : nat) (buttons : list nat)
    : nat * list nat * list nat :=
  fold_left
    (fun '(index, buttons, column_layout) (_column : nat) =>
       (S index, (buttons ++ [index])%list, (column_layout ++ [index])%list))
    (seq 0 columns) (index, buttons, []).

Definition build_buttons (rows columns : nat) : list nat * list (list nat) :=
  let '(_, buttons, row_layout) :=
    fold_left
      (fun '(index, buttons, row_layout) (_row : nat) =>
         let '(index', buttons', column_layout) :=
           build_row columns index buttons in
         (index', buttons', (row_layout ++ [column_layout])%list))
      (seq 0 rows) (0%nat, [], []) in
  (buttons, row_layout).

(** * Vocabulary of the properties *)

Local Open Scope list_scope.

(** The levels a dimmer can hold and pass to its callback. *)
Definition level_ok (v : Z) : Prop := 0 <= v <= 100.

(** What holds of a dimmer built with normal level [b] after any
    operations: it is still as constructed, or its current level is
    between 0 and [b]. *)
Definition inv (t b : Z) (d : Dimmer.t) : Prop :=
  Dimmer.brightness d = b
  ∧ (d = Dimmer.new t b ∨ 0 <= Dimmer.dimmer_brightness d <= b).

(** The state after [n] more calls to collaborators that left the events
    [evs] and changed nothing else. *)
Definition advance (s : Sys) (n : nat) (evs : list event) : Sys :=
  {| dimmers := dimmers s; pages := pages s; levels := levels s;
     buttons := buttons s; faults := faults s;
     clock := (n + clock s)%nat;
     trace := trace s ++ evs |}.

(** [m], run in [s], returns [a], and its only effect is the events
    [evs]. *)
Definition emits {A} (m : M A) (s : Sys) (a : A) (evs : list event) : Prop :=
  ∃ n, m s = (Returned a, advance s n evs).

(** The keys pressed, the keys released and the sleeps of a trace, in
    order. *)
Definition presses (evs : list event) : list keyval :=
  omap (fun e => match e with Press k => Some k | _ => None end) evs.

Definition releases (evs : list event) : list keyval :=
  omap (fun e => match e with Release k => Some k | _ => None end) evs.

Definition sleeps (evs : list event) : list pynum :=
  omap (fun e => match e with Sleep t => Some t | _ => None end) evs.

(** The suffix of a delay token after its first five characters. *)
Definition delay_arg (s : string) : string :=
  String.substring 5 (String.length s - 5) s.

(** The events a macro can leave: presses, releases, sleeps and reports. *)
Definition macro_event (e : event) : Prop :=
  match e with
  | Press _ | Release _ | Sleep _ | Print _ => True
  | _ => False
  end.

(** The events the brightness step can leave after its first call. *)
Definition brightness_event (e : event) : Prop :=
  match e with
  | ApiGetBrightness _ | DimmerReset _ | Callback _ _
  | Print BrightnessFailed => True
  | _ => False
  end.

(** The keys of a section that are pressed and released: all but the
    delay tokens. *)
Definition pressed_keys (ks : list keyval) : list keyval :=
  filter (fun k => is_delay k = false) ks.

(** What the first loop over a section leaves for one element of
    [section_keys]: a key is pressed once and nothing sleeps; a delay
    token presses nothing. Nothing is released. *)
Definition press_phase (k : keyval) (evs : list event) : Prop :=
  presses evs = (if is_delay k then [] else [k])
  ∧ releases evs = []
  ∧ (is_delay k = false -> sleeps evs = [])
  ∧ Forall macro_event evs.

(** What the second loop leaves for one element: a key is released once,
    a delay token is skipped; nothing is pressed and nothing sleeps. *)
Definition release_phase (k : keyval) (evs : list event) : Prop :=
  releases evs = (if is_delay k then [] else [k])
  ∧ presses evs = []
  ∧ sleeps evs = []
  ∧ Forall macro_event evs.

(** The events of one section: those of the press loop, then those of the
    release loop, with the same keys in the same order. *)
Definition section_events (ks : list keyval) (evs : list event) : Prop :=
  ∃ tp tr,
    evs = tp ++ tr
    ∧ presses tp = pressed_keys ks ∧ releases tp = []
    ∧ presses tr = [] ∧ releases tr = pressed_keys ks
    ∧ sleeps tr = []
    ∧ Forall macro_event evs.

(** The events that come from a dimmer: a reset, a callback call. *)
Definition dimmer_event (e : event) : Prop :=
  match e with
  | DimmerReset _ | Callback _ _ => True
  | _ => False
  end.

(** The state with the dimmer of a deck replaced. *)
Definition put_dimmer (deck_id : string) (d : Dimmer.t) (s : Sys) : Sys :=
  {| dimmers := <[deck_id := d]> (dimmers s); pages := pages s;
     levels := levels s; buttons := buttons s; faults := faults s;
     clock := clock s; trace := trace s |}.

(** The state with the brightness of a deck replaced. *)
Definition put_level (deck_id : string) (level : Z) (s : Sys) : Sys :=
  {| dimmers := dimmers s; pages := pages s;
     levels := update (levels s) deck_id level; buttons := buttons s;
     faults := faults s; clock := clock s; trace := trace s |}.

(** The state with the active page of a deck replaced. *)
Definition put_page (deck_id : string) (page : Z) (s : Sys) : Sys :=
  {| dimmers := dimmers s; pages := update (pages s) deck_id page;
     levels := levels s; buttons := buttons s;
     faults := faults s; clock := clock s; trace := trace s |}.

(** What a step may change: it leaves the pages, the configuration and
    the behaviour of the collaborators alone, and adds events. *)
Definition extends (s s' : Sys) (evs : list event) : Prop :=
  pages s' = pages s ∧ buttons s' = buttons s ∧ faults s' = faults s
  ∧ trace s' = trace s ++ evs.

(** The events of the first three steps: the command, the macro, the
    text. *)
Definition first_steps (Key_getattr : string -> option keyval)
    (a : ButtonAction) (s : Sys)
    (e_command e_keys e_write : list event) : Prop :=
  e_command
  = (if nonempty (command a)
     then Popen (command a)
          :: (if faults s (clock s) (Popen (command a))
              then [Print (CommandFailed (command a))] else [])
     else [])
  ∧ (∃ evss,
       e_keys = concat evss
       ∧ if nonempty (keys a)
         then Forall2
                (fun section evs =>
                   section_events (section_keys Key_getattr section) evs)
                (sections (keys a)) evss
         else evss = [])
  ∧ (∃ failed : bool,
       e_write
       = if nonempty (write a)
         then TypeText (write a)
              :: (if failed then [Print WriteFailed] else [])
         else []).

(** The levels a ramp from level [n] passes to the callback: [n]-1 down
    to 0. *)
Fixpoint countdown (n : nat) : list Z :=
  match n with
  | O => []
  | S m => Z.of_nat m :: countdown m
  end.

(** A dimmer that counts down to the next dimming: not stopped, at its
    normal level, the idle timer running, no ramp timer. *)
Definition counting (t b : Z) : Dimmer.t :=
  Dimmer.mk t b false b (Some (QTimer.armed (t * 1000))) None.

(** The two timers of a dimmer never run together, and none runs while
    the dimmer is stopped. *)
Definition timers_ok (d : Dimmer.t) : Prop :=
  (Dimmer.running (Dimmer.timer d) = true ->
   Dimmer.running (Dimmer.change_timer d) = false)
  ∧ (Dimmer.stopped d = true ->
     Dimmer.running (Dimmer.timer d) = false
     ∧ Dimmer.running (Dimmer.change_timer d) = false).

(** The level the display was last told, given the one before [out]. *)
Definition last_shown (before : option Z) (out : list Z) : option Z :=
  match last out with
  | Some level => Some level
  | None => before
  end.

(** The current level of a dimmer is the level the display was last
    told, or the initial -1 when it was told none. *)
Definition in_sync (d : Dimmer.t) (shown : option Z) : Prop :=
  Dimmer.dimmer_brightness d = default (-1)%Z shown.

(** The callback calls [dim(True)] makes for the dimmer of a deck. *)
Definition dim_events (ds : gmap string Dimmer.t) (deck_id : string)
    : list event :=
  match ds !! deck_id with
  | Some d => Callback deck_id <$> (Dimmer.dim true d).2
  | None => []
  end.

(** ** Sample data for the examples *)

(** A few members of pynput's [Key]. *)
Definition sample_Key (name : string) : option keyval :=
  if bool_decide (name ∈ ["ctrl"; "shift"; "alt"; "enter"; "tab"; "esc"])
  then Some (KAttr name)
  else None.

(** [float] on the numerals of the examples. *)
Definition sample_float (arg : string) : option float :=
  if String.eqb arg "1.5" then Some 1.5%float
  else if String.eqb arg "0" then Some 0%float
  else None.

(** A button that has every kind of action bound. *)
Definition sample_action : ButtonAction :=
  {| command := "firefox";
     keys := "ctrl+shift+a,delay1.5,b";
     write := "hello";
     brightness_change := 10;
     switch_page := 2;
     target_device := "D2" |}.

(** One deck, D1, with dimmer [d] and brightness 50; every key of every
    page has the same action; [faults] tells which calls raise. *)
Definition sample_sys (d : Dimmer.t) (a : ButtonAction)
    (faults : nat -> event -> bool) : Sys :=
  {| dimmers := {["D1" := d]};
     pages := fun _ => 0%Z;
     levels := fun _ => 50%Z;
     buttons := fun _ _ _ => a;
     faults := faults;
     clock := 0;
     trace := [] |}.

(** No call raises. *)
Definition no_fault : nat -> event -> bool := fun _ _ => false.

(** Every [keyboard.press] raises. *)
Definition press_fault : nat -> event -> bool :=
  fun _ e => match e with Press _ => true | _ => false end.

(** [api.set_page] raises. *)
Definition set_page_fault : nat -> event -> bool :=
  fun _ e => match e with ApiSetPage _ _ => true | _ => false end.

(** [api.change_brightness] raises. *)
Definition change_brightness_fault : nat -> event -> bool :=
  fun _ e => match e with ApiChangeBrightness _ _ => true | _ => false end.

(** A dimmer with a timeout of 10 s and normal level 50, after its first
    reset: awake, with the idle timer running. *)
Definition awake : Dimmer.t := (Dimmer.reset (Dimmer.new 10 50)).1.2.

(** The same dimmer after its idle timer expired and the ramp made two
    steps: dimmed to 48. *)
Definition dimmed : Dimmer.t :=
  default awake
    (fst <$> Dimmer.run [Dimmer.IdleTimeout; Dimmer.RampTick] awake).

(** A life of the dimmer of a deck: the reset at start-up, the settings
    dialog assigns a new normal level and a new timeout and resets it,
    the tray menu dims the display and the ramp makes a step, a key press
    resets it, and the idle timer expires. *)
Definition sample_uses : list use :=
  [Call Dimmer.Reset; AssignBrightness 60; AssignTimeout 30;
   Call Dimmer.Reset; Call (Dimmer.Dim true); Call Dimmer.RampTick;
   Call Dimmer.Reset; Call Dimmer.IdleTimeout].

(** The dimmer after [sample_uses]. *)
Definition sample_used : Dimmer.t :=
  Dimmer.mk 30 60 false 59
    (Some (QTimer.stop (QTimer.armed 30000))) (Some (QTimer.armed 10)).

(** Two decks: D1 is awake, the display of D2 is dimmed to 48. *)
Definition two_decks : Sys :=
  {| dimmers := <["D2" := dimmed]> {["D1" := awake]};
     pages := fun _ => 0%Z;
     levels := fun _ => 50%Z;
     buttons := fun _ _ _ => sample_action;
     faults := no_fault;
     clock := 0;
     trace := [] |}.

(** * Properties of the dimmer *)

Section DimmerFacts.

Import Dimmer.

Implicit Types (d : Dimmer.t) (tm : option QTimer.t).

Lemma running_stop_timer tm : running (stop_timer tm) = false.
Proof. by destruct tm. Qed.

Lemma running_armed msec : running (Some (QTimer.armed msec)) = true.
Proof. reflexivity. Qed.

Lemma singleShot_armed msec : QTimer.singleShot (QTimer.armed msec) = true.
Proof. reflexivity. Qed.

(** [reset] leaves the two public attributes alone and always ends with
    the current level at the normal level. *)
Lemma reset_brightness d :
  brightness (reset d).1.2 = brightness d
  ∧ timeout (reset d).1.2 = timeout d
  ∧ dimmer_brightness (reset d).1.2 = brightness d.
Proof.
  unfold reset.
  destruct (decide (dimmer_brightness d = brightness d)) as [Heq | Hne].
  - rewrite (bool_decide_false (dimmer_brightness d ≠ brightness d)) by tauto.
    done.
  - by rewrite (bool_decide_true (dimmer_brightness d ≠ brightness d)).
Qed.

(** C2, as the code has it. A [reset()] that returns, from any state of
    a dimmer: the ramp timer is no longer running and [stopped] is
    cleared; the idle timer is the old one, stopped, when the timeout is 0
    and a new single-shot timer of [timeout] seconds otherwise, so it runs
    if and only if the timeout is not 0, a negative one included; the
    result is [True] exactly when the current level differed from the
    normal level, and then the callback received the normal level once,
    otherwise it was not called; the current level is the normal level
    afterwards. [reset()] returns unless the milliseconds of a timeout
    other than 0 do not fit a C [int]. *)
Theorem reset_spec d woke d' out :
  reset_raises d = false ->
  reset d = (woke, d', out) ->
  running (change_timer d') = false
  ∧ change_timer d' = stop_timer (change_timer d)
  ∧ stopped d' = false
  ∧ (running (timer d') = true ↔ timeout d ≠ 0)
  ∧ (timeout d ≠ 0 ->
     QTimer.fits (timeout d * 1000) = true
     ∧ timer d' = Some (QTimer.armed (timeout d * 1000)))
  ∧ (timeout d = 0 -> timer d' = stop_timer (timer d))
  ∧ (woke = true ↔ dimmer_brightness d ≠ brightness d)
  ∧ (woke = true -> out = [brightness d])
  ∧ (woke = false -> out = [])
  ∧ dimmer_brightness d' = brightness d
  ∧ brightness d' = brightness d
  ∧ timeout d' = timeout d.
Proof.
  intros Hfits Hreset.
  pose proof (reset_brightness d) as (Hb & Ht & Hcur).
  rewrite Hreset in Hb, Ht, Hcur; simpl in Hb, Ht, Hcur.
  unfold reset in Hreset.
  assert (Htimer : timer d' =
            if bool_decide (timeout d ≠ 0)
            then Some (QTimer.armed (timeout d * 1000))
            else stop_timer (timer d)).
  { by repeat case_bool_decide; simplify_eq. }
  assert (Hctm : change_timer d' = stop_timer (change_timer d)).
  { by repeat case_bool_decide; simplify_eq. }
  assert (Hstopped : stopped d' = false).
  { by repeat case_bool_decide; simplify_eq. }
  assert (Hwoke : woke = bool_decide (dimmer_brightness d ≠ brightness d)).
  { by repeat case_bool_decide; simplify_eq. }
  assert (Hout : out = if woke then [brightness d] else []).
  { by repeat case_bool_decide; simplify_eq. }
  clear Hreset.
  split_and!; try done.
  - rewrite Hctm. apply running_stop_timer.
  - rewrite Htimer.
    destruct (decide (timeout d = 0)) as [Hz | Hz].
    + rewrite bool_decide_false, running_stop_timer by tauto.
      split; [done | tauto].
    + by rewrite bool_decide_true by done.
  - intros Hnz. unfold reset_raises in Hfits.
    rewrite (bool_decide_true _ Hnz) in Hfits. simpl in Hfits.
    apply negb_false_iff in Hfits.
    split; [exact Hfits |]. by rewrite Htimer, bool_decide_true.
  - intros Hz. rewrite Htimer, bool_decide_false; [done | tauto].
  - rewrite Hwoke. apply bool_decide_eq_true.
  - intros ->. done.
  - intros ->. done.
Qed.

(** C9, as the code has it. The first [reset()] of a newly constructed
    dimmer, when it returns, returns [True] and has called the callback
    with the normal level: the current level starts at -1, which no level
    in 0-100 equals. It returns for a timeout of 0 and for one whose
    milliseconds fit a C [int], and for no other. *)
Theorem first_reset_wakes (t b : Z) :
  0 <= b <= 100 ->
  reset_raises (new t b) = false ->
  dimmer_brightness (new t b) = -1
  ∧ (reset (new t b)).1.1 = true
  ∧ (reset (new t b)).2 = [b]
  ∧ dimmer_brightness (reset (new t b)).1.2 = b
  ∧ (t = 0 ∨ (QTimer.INT_MIN <= t * 1000 <= QTimer.INT_MAX)).
Proof.
  intros Hb Hfits. split_and!.
  - done.
  - unfold reset, new; simpl.
    by rewrite (bool_decide_true (-1 ≠ b)) by lia.
  - unfold reset, new; simpl.
    by rewrite (bool_decide_true (-1 ≠ b)) by lia.
  - unfold reset, new; simpl.
    by rewrite (bool_decide_true (-1 ≠ b)) by lia.
  - unfold reset_raises, new, QTimer.fits in Hfits. simpl in Hfits.
    destruct (decide (t = 0)) as [Hz | Hnz]; [by left | right].
    rewrite (bool_decide_true _ Hnz) in Hfits. simpl in Hfits.
    apply negb_false_iff, andb_true_iff in Hfits as [Hlo Hhi]. lia.
Qed.

(** [dim] does nothing while the dimmer is stopped. *)
Lemma dim_stopped toggle d :
  stopped d = true -> dim toggle d = (d, []).
Proof. intros Hs. unfold dim. by rewrite Hs. Qed.

(** [dim(True)] at level 0 is [reset()]. *)
Lemma dim_toggle_floor d :
  stopped d = false -> dimmer_brightness d = 0 ->
  dim true d = ((reset d).1.2, (reset d).2).
Proof.
  intros Hs Hz. unfold dim. rewrite Hs, Hz. simpl.
  by destruct (reset d) as [[? ?] ?].
Qed.

(** [dim] with the idle timer pending, a level other than 0 and no ramp
    timer object stops the idle timer and starts the ramp. *)
Lemma dim_starts_ramp d :
  stopped d = false -> running (timer d) = true ->
  change_timer d = None -> dimmer_brightness d ≠ 0 ->
  dim false d = change_brightness (stop_idle d).
Proof.
  intros Hs Hrun Hnone Hnz. unfold dim. rewrite Hs, Hrun. simpl.
  rewrite Hnone, bool_decide_true by done.
  by rewrite bool_decide_true.
Qed.

(** With a ramp timer object left from an earlier ramp, running or not,
    [dim] stops the idle timer and does nothing else. *)
Lemma dim_stale_ramp_timer d q :
  stopped d = false -> running (timer d) = true ->
  change_timer d = Some q -> dimmer_brightness d ≠ 0 ->
  dim false d = (stop_idle d, []).
Proof.
  intros Hs Hrun Hq Hnz. unfold dim. rewrite Hs, Hrun. simpl.
  rewrite Hq. by rewrite (bool_decide_false (Some q = None)).
Qed.

(** C3. A dimmer with a timeout of 10 s and level 50 is reset, its idle
    timer expires (the ramp starts: level 49), and it is reset again (the
    ramp is cancelled, level 50). Now the idle timer is pending, no ramp
    is running and the level is not 0, yet [dim()] only stops the idle
    timer: it starts no ramp, calls the callback with nothing, and leaves
    no timer running. *)
Theorem dim_after_cancelled_ramp :
  ∃ d out,
    run [Reset; IdleTimeout; Reset] (new 10 50) = Some (d, out)
    ∧ out = [50; 49; 50]
    ∧ stopped d = false
    ∧ running (timer d) = true
    ∧ running (change_timer d) = false
    ∧ dimmer_brightness d = 50
    ∧ dim false d = (stop_idle d, [])
    ∧ dim false d ≠ change_brightness (stop_idle d)
    ∧ running (timer (dim false d).1) = false
    ∧ running (change_timer (dim false d).1) = false
    ∧ dimmer_brightness (dim false d).1 = 50.
Proof.
  eexists _, _. split; [reflexivity|].
  split_and!; try reflexivity. discriminate.
Qed.

Lemma change_brightness_inv t b d d' out :
  0 <= b <= 100 ->
  brightness d = b -> 0 <= dimmer_brightness d <= b ->
  change_brightness d = (d', out) ->
  inv t b d' ∧ Forall level_ok out.
Proof.
  intros Hb Hbr Hcur Hcb. unfold change_brightness in Hcb.
  case_bool_decide; simplify_eq; unfold inv, level_ok; simpl.
  - split; [split; [done | right; lia] |]. repeat constructor; lia.
  - split; [split; [done | right; lia] |]. constructor.
Qed.

Lemma reset_out_ok d :
  level_ok (brightness d) -> Forall level_ok (reset d).2.
Proof.
  intros Hb. unfold reset.
  destruct (bool_decide (dimmer_brightness d ≠ brightness d)); simpl.
  - constructor; [exact Hb | constructor].
  - constructor.
Qed.

Lemma exec_inv t b o d d' out :
  0 <= b <= 100 ->
  inv t b d -> exec o d = Some (d', out) ->
  inv t b d' ∧ Forall level_ok out.
Proof.
  intros Hb [Hbr Hcur] Hexec. subst b.
  assert (Hreset : inv t (brightness d) (reset d).1.2
                   ∧ Forall level_ok (reset d).2).
  { pose proof (reset_brightness d) as (Hb' & _ & Hcur').
    split; [| by apply reset_out_ok].
    split; [done | right; lia]. }
  destruct o; simpl in Hexec.
  - destruct (reset d) as [[woke d1] out1]. by simplify_eq.
  - unfold stop in Hexec. simplify_eq. unfold inv; simpl.
    split; [split; [done | right; lia] |].
    constructor; [exact Hb | constructor].
  - unfold dim in Hexec.
    destruct (stopped d); [by simplify_eq |].
    destruct (toggle && bool_decide (dimmer_brightness d = 0)).
    { destruct (reset d) as [[woke d1] out1]. by simplify_eq. }
    destruct (running (timer d)) eqn:Hrun; [| by simplify_eq].
    destruct Hcur as [Hnew | Hcur]; [by rewrite Hnew in Hrun |].
    destruct (bool_decide (change_timer (stop_idle d) = None)
              && bool_decide (dimmer_brightness (stop_idle d) ≠ 0)).
    + injection Hexec as Hexec.
      refine (change_brightness_inv t _ _ _ _ Hb _ _ Hexec);
        [reflexivity | exact Hcur].
    + simplify_eq. split; [| constructor]. split; [done | by right].
  - unfold idle_timeout in Hexec.
    destruct (running (timer d)) eqn:Hrun; [| done].
    destruct Hcur as [Hnew | Hcur]; [by rewrite Hnew in Hrun |].
    injection Hexec as Hexec.
    refine (change_brightness_inv t _ _ _ _ Hb _ _ Hexec);
      [reflexivity | exact Hcur].
  - unfold ramp_tick in Hexec.
    destruct (running (change_timer d)) eqn:Hrun; [| done].
    destruct Hcur as [Hnew | Hcur]; [by rewrite Hnew in Hrun |].
    injection Hexec as Hexec.
    refine (change_brightness_inv t _ _ _ _ Hb _ _ Hexec);
      [reflexivity | exact Hcur].
Qed.

Lemma run_inv t b os : ∀ d d' out,
  0 <= b <= 100 ->
  inv t b d -> run os d = Some (d', out) ->
  inv t b d' ∧ Forall level_ok out.
Proof.
  induction os as [| o os IH]; intros d d' out Hb Hinv Hrun; simpl in Hrun.
  - simplify_eq. split; [done | constructor].
  - destruct (exec o d) as [[d1 out1] |] eqn:Hexec; [| done].
    destruct (run os d1) as [[d2 out2] |] eqn:Hrest; [| done].
    simplify_eq.
    destruct (exec_inv t b o d d1 out1 Hb Hinv Hexec) as [Hinv1 Hout1].
    destruct (IH d1 d' out2 Hb Hinv1 Hrest) as [Hinv2 Hout2].
    split; [done |]. by apply Forall_app.
Qed.

(** A timer expiry at a level that is not 0 lowers the level by one,
    reports the new level and schedules the next tick in 10 ms; at level
    0 it changes nothing, reports nothing and schedules nothing. *)
Lemma tick_step o d d' out :
  o = IdleTimeout ∨ o = RampTick ->
  exec o d = Some (d', out) ->
  (dimmer_brightness d ≠ 0
   ∧ dimmer_brightness d' = dimmer_brightness d - 1
   ∧ out = [dimmer_brightness d - 1]
   ∧ change_timer d' = Some (QTimer.armed 10))
  ∨ (dimmer_brightness d = 0
     ∧ dimmer_brightness d' = 0
     ∧ out = []
     ∧ change_timer d' = None).
Proof.
  intros [-> | ->] Hexec; simpl in Hexec.
  - unfold idle_timeout in Hexec.
    destruct (running (timer d)); [| done].
    unfold change_brightness in Hexec; simpl in Hexec.
    case_bool_decide as Hz; simplify_eq; simpl; [by left |].
    right. assert (Hz' : dimmer_brightness d = 0) by lia. by rewrite Hz'.
  - unfold ramp_tick in Hexec.
    destruct (running (change_timer d)); [| done].
    unfold change_brightness in Hexec; simpl in Hexec.
    case_bool_decide as Hz; simplify_eq; simpl; [by left |].
    right. assert (Hz' : dimmer_brightness d = 0) by lia. by rewrite Hz'.
Qed.

(** C8, as the code has it. After construction with a normal level [b] in
    0-100 and any sequence of operations, the dimmer is still as
    constructed, with the current level at the initial -1, or its current
    level is within 0-[b]; every level passed to the callback is within
    0-100; and a timer expiry in such a state either lowers a positive
    level by exactly one or, at level 0, changes nothing and ends the
    ramp, so that a ramp reaches 0 from 1 only. *)
Theorem brightness_stays_in_range (t b : Z) os d out :
  0 <= b <= 100 ->
  run os (new t b) = Some (d, out) ->
  (d = new t b ∨ 0 <= dimmer_brightness d <= b)
  ∧ Forall level_ok out
  ∧ ∀ o d' out',
      o = IdleTimeout ∨ o = RampTick ->
      exec o d = Some (d', out') ->
      (0 < dimmer_brightness d
       ∧ dimmer_brightness d' = dimmer_brightness d - 1
       ∧ out' = [dimmer_brightness d']
       ∧ running (change_timer d') = true)
      ∨ (dimmer_brightness d = 0
         ∧ dimmer_brightness d' = 0
         ∧ out' = []
         ∧ change_timer d' = None).
Proof.
  intros Hb Hrun.
  assert (Hnew : inv t b (new t b)) by (split; [done | by left]).
  destruct (run_inv t b os _ _ _ Hb Hnew Hrun) as [[Hbr Hcur] Hout].
  split_and!; [done | done |].
  intros o d' out' Ho Hexec.
  destruct (tick_step o d d' out' Ho Hexec)
    as [(Hnz & Hdec & -> & Hctm) | Hfloor]; [left | by right].
  rewrite Hdec, Hctm. split_and!; try done.
  destruct Hcur as [-> | Hcur]; [| lia].
  by destruct Ho as [-> | ->].
Qed.

End DimmerFacts.

(** * Properties of the dispatcher *)

Lemma advance_eq (s s' : Sys) n evs :
  dimmers s' = dimmers s -> pages s' = pages s -> levels s' = levels s ->
  buttons s' = buttons s -> faults s' = faults s ->
  clock s' = (n + clock s)%nat -> trace s' = trace s ++ evs ->
  s' = advance s n evs.
Proof.
  destruct s, s'; simpl; intros; subst; reflexivity.
Qed.

(** Two states are equal when their fields are. *)
Ltac sys_eq :=
  apply advance_eq; simpl;
  rewrite ?app_nil_r, <- ?app_assoc; simpl; try done; try lia.

Section Effects.

Implicit Types (s : Sys) (evs : list event).

Lemma advance_0_nil s : advance s 0 [] = s.
Proof. symmetry. sys_eq. Qed.

Lemma advance_advance s n m evs evs' :
  advance (advance s n evs) m evs' = advance s (n + m) (evs ++ evs').
Proof. sys_eq. Qed.

Lemma emits_ret {A} (a : A) s : emits (ret a) s a [].
Proof. exists 0%nat. by rewrite advance_0_nil. Qed.

Lemma emits_bind {A B} (m : M A) (k : A -> M B) s a b evs evs' :
  emits m s a evs ->
  (∀ n, emits (k a) (advance s n evs) b evs') ->
  emits (bind m k) s b (evs ++ evs').
Proof.
  intros [n Hm] Hk. destruct (Hk n) as [n' Hk'].
  exists (n + n')%nat. unfold bind. rewrite Hm, Hk'.
  by rewrite advance_advance.
Qed.

Lemma emits_bind_at {A B} (m : M A) (k : A -> M B) s a b n evs evs' :
  m s = (Returned a, advance s n evs) ->
  emits (k a) (advance s n evs) b evs' ->
  emits (bind m k) s b (evs ++ evs').
Proof.
  intros Hm [n' Hk]. exists (n + n')%nat. unfold bind.
  by rewrite Hm, Hk, advance_advance.
Qed.

Lemma emits_emit e s : emits (emit e) s tt [e].
Proof.
  exists 0%nat. unfold emit. f_equal; sys_eq.
Qed.

(** A call inside [try], with a handler that prints: the call is
    recorded, then the report when the call raised. *)
Lemma emits_guarded_call e r s :
  emits (try_except (call e) (print r)) s tt
    (e :: if faults s (clock s) e then [Print r] else []).
Proof.
  exists 1%nat. unfold try_except, call, print, emit.
  destruct (faults s (clock s) e); simpl; f_equal; sys_eq.
Qed.

Lemma emits_for_each {A} (body : A -> M unit) (P : A -> list event -> Prop) :
  (∀ x s, ∃ evs, emits (body x) s tt evs ∧ P x evs) ->
  ∀ xs s, ∃ evss,
    emits (for_each xs body) s tt (concat evss) ∧ Forall2 P xs evss.
Proof.
  intros Hbody. induction xs as [| x xs IH]; intros s.
  - exists []. split; [apply emits_ret | constructor].
  - destruct (Hbody x s) as (evs & [n Hx] & HP).
    destruct (IH (advance s n evs)) as (evss & [n' Hxs] & HPs).
    exists (evs :: evss). split; [| by constructor].
    exists (n + n')%nat. simpl. unfold bind. rewrite Hx, Hxs.
    by rewrite advance_advance.
Qed.

End Effects.

(** ** Strings *)

Section Strings.

Lemma lower_char_idemp c : lower_char (lower_char c) = lower_char c.
Proof. by destruct c as [[] [] [] [] [] [] [] []]. Qed.

Lemma lower_idemp s : lower (lower s) = lower s.
Proof.
  induction s as [| c s IH]; simpl; [done |].
  by rewrite lower_char_idemp, IH.
Qed.

Lemma startswith_lower p s :
  startswith p s = true -> startswith (lower p) (lower s) = true.
Proof.
  unfold startswith. revert s.
  induction p as [| a p IH]; intros [| b s]; simpl; try done.
  destruct (ascii_dec a b) as [-> | Hne]; [| done].
  intros Hp. destruct (ascii_dec (lower_char b) (lower_char b)); [| done].
  by apply IH.
Qed.

Lemma startswith_delay_lower s :
  startswith "delay" s = true -> startswith "delay" (lower s) = true.
Proof. intros Hs. by apply (startswith_lower "delay"). Qed.

Lemma after_first_startswith sep s :
  startswith sep s = true ->
  after_first sep s =
    Some (String.substring (String.length sep)
            (String.length s - String.length sep) s).
Proof. intros Hs. destruct s; cbn [after_first]; by rewrite Hs. Qed.

Lemma after_first_delay s :
  startswith "delay" s = true -> after_first "delay" s = Some (delay_arg s).
Proof. apply after_first_startswith. Qed.

End Strings.

(** ** Macros *)

Section MacroFacts.

Variable py_float : string -> option float.
Variable Key_getattr : string -> option keyval.

Implicit Types (s : Sys) (k : keyval) (evs : list event).

Lemma truthy_half : truthy (PFloat 0.5) = true.
Proof. reflexivity. Qed.

Lemma emits_press k s :
  emits (press k) s tt
    (Press k :: if faults s (clock s) (Press k)
                then [Print (PressFailed k)] else []).
Proof. apply emits_guarded_call. Qed.

Lemma emits_release k s :
  emits (release k) s tt
    (Release k :: if faults s (clock s) (Release k)
                  then [Print (ReleaseFailed k)] else []).
Proof. apply emits_guarded_call. Qed.

Lemma emits_sleep t s :
  emits (sleep t) s tt
    (if truthy t
     then Sleep t :: (if faults s (clock s) (Sleep t)
                      then [Print (SleepFailed t)] else [])
     else []).
Proof.
  unfold sleep. destruct (truthy t); [apply emits_guarded_call |].
  apply emits_ret.
Qed.

(** The sleep time of a delay token is always found: the default, the
    parsed number, or 0 with a report. *)
Lemma emits_sleep_time_of key_name s :
  startswith "delay" key_name = true ->
  ∃ t evs,
    emits (sleep_time_of py_float key_name) s t evs
    ∧ (evs = [] ∨ evs = [Print (BadSleepTime (delay_arg key_name))]).
Proof.
  intros Hd. unfold sleep_time_of.
  rewrite (after_first_delay _ Hd).
  destruct (nonempty (delay_arg key_name)).
  - destruct (py_float (delay_arg key_name)) as [f |].
    + exists (PFloat f), []. split; [apply emits_ret | by left].
    + exists (PInt 0), [Print (BadSleepTime (delay_arg key_name))].
      split; [| by right].
      rewrite <- (app_nil_r [Print _]).
      eapply emits_bind; [apply emits_emit |]. intros n. apply emits_ret.
  - exists (PFloat 0.5), []. split; [apply emits_ret | by left].
Qed.

Lemma press_phase_press k (b : bool) r :
  is_delay k = false ->
  press_phase k (Press k :: if b then [Print r] else []).
Proof.
  intros Hk. unfold press_phase. rewrite Hk.
  destruct b; split_and!; try done; by repeat constructor.
Qed.

Lemma emits_press_or_sleep k s :
  ∃ evs, emits (press_or_sleep py_float k) s tt evs ∧ press_phase k evs.
Proof.
  destruct k as [str | name]; simpl.
  - destruct (startswith "delay" str) eqn:Hd.
    + destruct (emits_sleep_time_of str s Hd) as (t & evs & [n Ht] & Hevs).
      eexists. split.
      * eapply emits_bind_at; [exact Ht | apply emits_sleep].
      * unfold press_phase; simpl. rewrite Hd.
        split_and!; [| | done |];
          destruct Hevs as [-> | ->], (truthy t); simpl; try done;
          try destruct (faults _ _ _); try done; by repeat constructor.
    + eexists. split; [apply emits_press |]. by apply press_phase_press.
  - eexists. split; [apply emits_press |]. by apply press_phase_press.
Qed.

Lemma emits_release_unless_delay k s :
  ∃ evs, emits (release_unless_delay k) s tt evs ∧ release_phase k evs.
Proof.
  unfold release_unless_delay, release_phase.
  destruct (is_delay k); simpl.
  - exists []. split; [apply emits_ret | done].
  - eexists. split; [apply emits_release |].
    destruct (faults _ _ _); split_and!; try done; by repeat constructor.
Qed.

Lemma presses_app evs evs' : presses (evs ++ evs') = presses evs ++ presses evs'.
Proof. apply omap_app. Qed.

Lemma releases_app evs evs' :
  releases (evs ++ evs') = releases evs ++ releases evs'.
Proof. apply omap_app. Qed.

Lemma sleeps_app evs evs' : sleeps (evs ++ evs') = sleeps evs ++ sleeps evs'.
Proof. apply omap_app. Qed.

Lemma pressed_keys_cons k ks :
  pressed_keys (k :: ks) = (if is_delay k then [] else [k]) ++ pressed_keys ks.
Proof.
  unfold pressed_keys. rewrite filter_cons.
  destruct (is_delay k); by case_decide.
Qed.

Lemma press_phase_concat ks evss :
  Forall2 press_phase ks evss ->
  presses (concat evss) = pressed_keys ks
  ∧ releases (concat evss) = []
  ∧ Forall macro_event (concat evss).
Proof.
  induction 1 as [| k evs ks evss (Hp & Hr & _ & Hm) _ (IHp & IHr & IHm)];
    [done |].
  simpl. rewrite presses_app, releases_app, pressed_keys_cons.
  rewrite Hp, Hr, IHp, IHr. split_and!; try done. by apply Forall_app.
Qed.

Lemma release_phase_concat ks evss :
  Forall2 release_phase ks evss ->
  releases (concat evss) = pressed_keys ks
  ∧ presses (concat evss) = [] ∧ sleeps (concat evss) = []
  ∧ Forall macro_event (concat evss).
Proof.
  induction 1
    as [| k evs ks evss (Hr & Hp & Hs & Hm) _ (IHr & IHp & IHs & IHm)];
    [done |].
  simpl. rewrite presses_app, releases_app, sleeps_app, pressed_keys_cons.
  rewrite Hp, Hr, Hs, IHp, IHr, IHs. split_and!; try done.
  by apply Forall_app.
Qed.

(** One section: both loops run to their end whatever fails. *)
Lemma emits_run_section_phases section s :
  ∃ evss evss',
    emits (run_section py_float Key_getattr section) s tt
      (concat evss ++ concat evss')
    ∧ Forall2 press_phase (section_keys Key_getattr section) evss
    ∧ Forall2 release_phase (section_keys Key_getattr section) evss'.
Proof.
  unfold run_section.
  destruct (emits_for_each (press_or_sleep py_float) press_phase
              emits_press_or_sleep (section_keys Key_getattr section) s)
    as (evss & [n Hpress] & Hp).
  destruct (emits_for_each release_unless_delay release_phase
              emits_release_unless_delay (section_keys Key_getattr section)
              (advance s n (concat evss)))
    as (evss' & Hrelease & Hr).
  exists evss, evss'. split; [| done].
  eapply emits_bind_at; [exact Hpress | exact Hrelease].
Qed.

(** One section leaves the presses, then the releases. *)
Lemma emits_run_section section s :
  ∃ evs, emits (run_section py_float Key_getattr section) s tt evs
         ∧ section_events (section_keys Key_getattr section) evs.
Proof.
  destruct (emits_run_section_phases section s) as (evss & evss' & He & Hp & Hr).
  exists (concat evss ++ concat evss'). split; [done |].
  destruct (press_phase_concat _ _ Hp) as (Hpp & Hpr & Hpm).
  destruct (release_phase_concat _ _ Hr) as (Hrr & Hrp & Hrs & Hrm).
  exists (concat evss), (concat evss'). split_and!; try done.
  by apply Forall_app.
Qed.

(** A macro runs all its sections. *)
Lemma emits_run_keys (keys : string) s :
  ∃ evss,
    emits (run_keys py_float Key_getattr keys) s tt (concat evss)
    ∧ if nonempty keys
      then Forall2
             (fun section evs =>
                section_events (section_keys Key_getattr section) evs)
             (sections keys) evss
      else evss = [].
Proof.
  unfold run_keys. destruct (nonempty keys).
  - apply (emits_for_each (run_section py_float Key_getattr)
             (fun section evs =>
                section_events (section_keys Key_getattr section) evs)).
    apply emits_run_section.
  - exists []. split; [apply emits_ret | done].
Qed.

(** C5. A macro runs all its sections, whatever press or release fails.
    The events of each section are those of its press loop followed by
    those of its release loop; the press loop presses the keys of the
    section (its tokens that are not delays) in token order and releases
    nothing; the release loop releases the same keys in the same order
    and presses nothing. So in each section the releases are the presses,
    as many and in the same order. *)
Theorem macro_presses_then_releases (keys : string) s :
  ∃ evss,
    emits (run_keys py_float Key_getattr keys) s tt (concat evss)
    ∧ if nonempty keys
      then Forall2
             (fun section evs =>
                section_events (section_keys Key_getattr section) evs
                ∧ releases evs = presses evs
                ∧ length (releases evs) = length (presses evs))
             (sections keys) evss
      else evss = [].
Proof.
  destruct (emits_run_keys keys s) as (evss & Hrun & Hsections).
  exists evss. split; [done |].
  destruct (nonempty keys); [| done].
  eapply Forall2_impl; [exact Hsections |].
  intros section evs Hevents. split; [done |].
  destruct Hevents as (tp & tr & -> & Hpp & Hpr & Hrp & Hrr & _).
  assert (Heq : releases (tp ++ tr) = presses (tp ++ tr)).
  { rewrite releases_app, presses_app, Hpp, Hpr, Hrp, Hrr.
    by rewrite app_nil_r. }
  split; [done | by rewrite Heq].
Qed.


(** pynput's [Key] has no attribute whose name starts with "delay", and
    none of its attributes is a string that starts with "delay". *)
Hypothesis Key_no_delay : ∀ name v,
  Key_getattr name = Some v ->
  startswith "delay" name = false ∧ is_delay v = false.

(** A token becomes a delay token exactly when, case-insensitively, it
    starts with "delay". *)
Lemma is_delay_translate (token : string) :
  is_delay (translate Key_getattr (_replace_special_keys token))
  = startswith "delay" (lower token).
Proof.
  assert (Hkey : ∀ name,
            is_delay (translate Key_getattr name)
            = match Key_getattr (lower name) with
              | Some _ => false
              | None => startswith "delay" name
              end).
  { intros name. unfold translate.
    destruct (Key_getattr (lower name)) as [v |] eqn:Hv; [| done].
    by destruct (Key_no_delay _ _ Hv). }
  rewrite Hkey. unfold _replace_special_keys.
  destruct (String.eqb (lower token) "plus") eqn:Hplus.
  { apply String.eqb_eq in Hplus. rewrite Hplus.
    by destruct (Key_getattr _). }
  destruct (String.eqb (lower token) "comma") eqn:Hcomma.
  { apply String.eqb_eq in Hcomma. rewrite Hcomma.
    by destruct (Key_getattr _). }
  destruct (startswith "delay" (lower token)) eqn:Hd.
  - rewrite lower_idemp.
    destruct (Key_getattr (lower token)) as [v |] eqn:Hv; [| done].
    destruct (Key_no_delay _ _ Hv) as [Hname _]. congruence.
  - destruct (Key_getattr (lower token)); [done |].
    destruct (startswith "delay" token) eqn:Ht; [| done].
    apply startswith_delay_lower in Ht. congruence.
Qed.

(** C4, as the code has it. Delays are found token by token: of the
    tokens of a segment, split at "+", exactly those that start with
    "delay", case-insensitively, become delay tokens, so a segment
    without "+" is one delay token exactly when it starts with "delay".
    A segment may mix keys and delays: in the press loop each key is
    pressed without sleeping and each delay token presses nothing, and
    the release loop neither sleeps nor presses. *)
Theorem delay_is_per_token (section : string) s :
  Forall2 (fun token k => is_delay k = startswith "delay" (lower token))
    (split "+" section) (section_keys Key_getattr section)
  ∧ (split "+" section = [section] ->
     ∃ k, section_keys Key_getattr section = [k]
          ∧ is_delay k = startswith "delay" (lower section))
  ∧ ∃ evss tr,
      emits (run_section py_float Key_getattr section) s tt
        (concat evss ++ tr)
      ∧ Forall2 press_phase (section_keys Key_getattr section) evss
      ∧ presses tr = [] ∧ sleeps tr = [].
Proof.
  assert (Htokens : ∀ tokens : list string,
            Forall2
              (fun token k => is_delay k = startswith "delay" (lower token))
              tokens
              (translate Key_getattr <$> (_replace_special_keys <$> tokens))).
  { induction tokens as [| token tokens IH]; simpl; constructor; [| done].
    apply is_delay_translate. }
  split_and!.
  - apply Htokens.
  - intros Hone. unfold section_keys. rewrite Hone. simpl.
    eexists. split; [done |]. apply is_delay_translate.
  - destruct (emits_run_section_phases section s)
      as (evss & evss' & He & Hp & Hr).
    destruct (release_phase_concat _ _ Hr) as (_ & Hrp & Hrs & _).
    by exists evss, (concat evss').
Qed.

End MacroFacts.

(** ** The dispatcher as a whole *)

Section DispatcherFacts.

Variable py_float : string -> option float.
Variable Key_getattr : string -> option keyval.

Implicit Types (s : Sys) (d : Dimmer.t) (evs : list event).

Lemma bind_returned {A B} (m : M A) (k : A -> M B) s a s' :
  m s = (Returned a, s') -> bind m k s = k a s'.
Proof. intros Hm. unfold bind. by rewrite Hm. Qed.

Lemma reset_woke_out d :
  (Dimmer.reset d).2
  = if (Dimmer.reset d).1.1 then [Dimmer.brightness d] else [].
Proof.
  unfold Dimmer.reset.
  by destruct (bool_decide (Dimmer.dimmer_brightness d ≠ Dimmer.brightness d)).
Qed.

Lemma callbacks_spec deck_id out s :
  callbacks deck_id out s
  = (Returned tt, advance s 0 (Callback deck_id <$> out)).
Proof.
  revert s. induction out as [| level out IH]; intros s.
  - by rewrite advance_0_nil.
  - unfold callbacks in *. simpl. unfold bind, emit. rewrite IH.
    f_equal; sys_eq.
Qed.

Lemma dimmer_reset_spec deck_id d s :
  dimmers s !! deck_id = Some d ->
  dimmer_reset deck_id s
  = (Returned (Dimmer.reset d).1.1,
     advance (put_dimmer deck_id (Dimmer.reset d).1.2 s) 0
       (DimmerReset deck_id :: (Callback deck_id <$> (Dimmer.reset d).2))).
Proof.
  intros Hd. unfold dimmer_reset, the_dimmer, bind, get. simpl.
  rewrite Hd. simpl.
  destruct (Dimmer.reset d) as [[woke d'] out]. simpl.
  rewrite callbacks_spec. f_equal; sys_eq.
Qed.

Lemma dimmer_reset_missing deck_id s :
  dimmers s !! deck_id = None -> dimmer_reset deck_id s = (Raised, s).
Proof.
  intros Hd. unfold dimmer_reset, the_dimmer, bind, get. simpl.
  by rewrite Hd.
Qed.

(** A key-up event does nothing. *)
Lemma key_up_does_nothing deck_id key s :
  handle_keypress py_float Key_getattr deck_id key false s = (Returned tt, s).
Proof. reflexivity. Qed.

Lemma api_get_page_spec deck_id s :
  api_get_page deck_id s = (Returned (pages s deck_id), s).
Proof. reflexivity. Qed.

Lemma api_get_button_spec deck_id page key s :
  api_get_button deck_id page key s
  = (Returned (buttons s deck_id page key), s).
Proof. reflexivity. Qed.

Lemma emits_run_command c s :
  emits (run_command c) s tt
    (if nonempty c
     then Popen c :: (if faults s (clock s) (Popen c)
                      then [Print (CommandFailed c)] else [])
     else []).
Proof.
  unfold run_command. destruct (nonempty c); [apply emits_guarded_call |].
  apply emits_ret.
Qed.

Lemma emits_run_write w s :
  emits (run_write w) s tt
    (if nonempty w
     then TypeText w :: (if faults s (clock s) (TypeText w)
                         then [Print WriteFailed] else [])
     else []).
Proof.
  unfold run_write. destruct (nonempty w); [apply emits_guarded_call |].
  apply emits_ret.
Qed.

Lemma bind_raised {A B} (m : M A) (k : A -> M B) s s' :
  m s = (Raised, s') -> bind m k s = (Raised, s').
Proof. intros Hm. unfold bind. by rewrite Hm. Qed.

Lemma try_returned {A} (body handler : M A) s a s' :
  body s = (Returned a, s') -> try_except body handler s = (Returned a, s').
Proof. intros Hm. unfold try_except. by rewrite Hm. Qed.

Lemma try_raised {A} (body handler : M A) s s' :
  body s = (Raised, s') -> try_except body handler s = handler s'.
Proof. intros Hm. unfold try_except. by rewrite Hm. Qed.

Lemma call_spec e s :
  call e s
  = (if faults s (clock s) e then Raised else Returned tt, advance s 1 [e]).
Proof. reflexivity. Qed.

Lemma print_spec r s : print r s = (Returned tt, advance s 0 [Print r]).
Proof. reflexivity. Qed.

Lemma api_change_brightness_fails deck_id delta s :
  faults s (clock s) (ApiChangeBrightness deck_id delta) = true ->
  api_change_brightness deck_id delta s
  = (Raised, advance s 1 [ApiChangeBrightness deck_id delta]).
Proof.
  intros Hfault. unfold api_change_brightness.
  apply bind_raised. by rewrite call_spec, Hfault.
Qed.

Lemma api_change_brightness_returns deck_id delta s :
  faults s (clock s) (ApiChangeBrightness deck_id delta) = false ->
  api_change_brightness deck_id delta s
  = (Returned tt,
     advance (put_level deck_id (clamp (levels s deck_id + delta)) s) 1
       [ApiChangeBrightness deck_id delta]).
Proof.
  intros Hfault. unfold api_change_brightness.
  erewrite bind_returned; [| by rewrite call_spec, Hfault].
  reflexivity.
Qed.

Lemma api_get_brightness_fails deck_id s :
  faults s (clock s) (ApiGetBrightness deck_id) = true ->
  api_get_brightness deck_id s
  = (Raised, advance s 1 [ApiGetBrightness deck_id]).
Proof.
  intros Hfault. unfold api_get_brightness.
  apply bind_raised. by rewrite call_spec, Hfault.
Qed.

Lemma api_get_brightness_returns deck_id s :
  faults s (clock s) (ApiGetBrightness deck_id) = false ->
  api_get_brightness deck_id s
  = (Returned (levels s deck_id), advance s 1 [ApiGetBrightness deck_id]).
Proof.
  intros Hfault. unfold api_get_brightness.
  erewrite bind_returned; [| by rewrite call_spec, Hfault].
  reflexivity.
Qed.

Lemma dimmer_set_brightness_spec deck_id value d s :
  dimmers s !! deck_id = Some d ->
  dimmer_set_brightness deck_id value s
  = (Returned tt,
     put_dimmer deck_id
       (Dimmer.mk (Dimmer.timeout d) value (Dimmer.stopped d)
          (Dimmer.dimmer_brightness d) (Dimmer.timer d)
          (Dimmer.change_timer d)) s).
Proof.
  intros Hd. unfold dimmer_set_brightness, the_dimmer, bind, get. simpl.
  by rewrite Hd.
Qed.

Lemma dimmer_set_brightness_missing deck_id value s :
  dimmers s !! deck_id = None ->
  dimmer_set_brightness deck_id value s = (Raised, s).
Proof.
  intros Hd. unfold dimmer_set_brightness, the_dimmer, bind, get. simpl.
  by rewrite Hd.
Qed.

(** The brightness step when [api.change_brightness] raises. *)
Lemma run_brightness_change_fails deck_id delta s :
  delta ≠ 0%Z ->
  faults s (clock s) (ApiChangeBrightness deck_id delta) = true ->
  run_brightness deck_id delta s
  = (Returned tt,
     advance s 1 [ApiChangeBrightness deck_id delta; Print BrightnessFailed]).
Proof.
  intros Hdelta Hfault. unfold run_brightness.
  rewrite bool_decide_true by done.
  erewrite try_raised;
    [| by apply bind_raised, api_change_brightness_fails].
  rewrite print_spec. f_equal; sys_eq.
Qed.

(** The brightness step when [api.change_brightness] returns and
    [api.get_brightness] raises. *)
Lemma run_brightness_get_fails deck_id delta s :
  delta ≠ 0%Z ->
  faults s (clock s) (ApiChangeBrightness deck_id delta) = false ->
  faults s (S (clock s)) (ApiGetBrightness deck_id) = true ->
  run_brightness deck_id delta s
  = (Returned tt,
     advance (put_level deck_id (clamp (levels s deck_id + delta)) s) 2
       [ApiChangeBrightness deck_id delta; ApiGetBrightness deck_id;
        Print BrightnessFailed]).
Proof.
  intros Hdelta Hchange Hget. unfold run_brightness.
  rewrite bool_decide_true by done.
  erewrite try_raised; cycle 1.
  { erewrite bind_returned by by apply api_change_brightness_returns.
    by apply bind_raised, api_get_brightness_fails. }
  rewrite print_spec. f_equal; sys_eq.
Qed.

(** The brightness step never raises, and it starts with the call of
    [api.change_brightness] when a change is bound. *)
Lemma run_brightness_spec deck_id delta s :
  ∃ s' evs,
    run_brightness deck_id delta s = (Returned tt, s')
    ∧ extends s s' evs
    ∧ if bool_decide (delta ≠ 0%Z)
      then ∃ rest, evs = ApiChangeBrightness deck_id delta :: rest
                   ∧ Forall brightness_event rest
      else s' = s ∧ evs = [].
Proof.
  destruct (decide (delta = 0%Z)) as [Hzero | Hdelta].
  { exists s, []. unfold run_brightness, extends.
    rewrite bool_decide_false by tauto. by rewrite app_nil_r. }
  rewrite (bool_decide_true _ Hdelta).
  destruct (faults s (clock s) (ApiChangeBrightness deck_id delta))
    eqn:Hchange.
  { eexists _, _. split; [by apply run_brightness_change_fails |].
    split; [done |]. eexists. split; [done |]. by repeat constructor. }
  destruct (faults s (S (clock s)) (ApiGetBrightness deck_id)) eqn:Hget.
  { eexists _, _. split; [by apply run_brightness_get_fails |].
    split; [done |]. eexists. split; [done |]. by repeat constructor. }
  unfold run_brightness. rewrite bool_decide_true by done.
  set (s1 := advance (put_level deck_id (clamp (levels s deck_id + delta)) s)
               1 [ApiChangeBrightness deck_id delta]).
  set (s2 := advance s1 1 [ApiGetBrightness deck_id]).
  assert (Hs1 : api_change_brightness deck_id delta s = (Returned tt, s1))
    by by apply api_change_brightness_returns.
  assert (Hs2 : api_get_brightness deck_id s1
                = (Returned (levels s1 deck_id), s2))
    by by apply api_get_brightness_returns.
  destruct (dimmers s !! deck_id) as [d |] eqn:Hd.
  - set (d1 := Dimmer.mk (Dimmer.timeout d) (levels s1 deck_id)
                 (Dimmer.stopped d) (Dimmer.dimmer_brightness d)
                 (Dimmer.timer d) (Dimmer.change_timer d)).
    eexists _, _. split.
    + apply try_returned.
      rewrite (bind_returned _ _ _ _ _ Hs1), (bind_returned _ _ _ _ _ Hs2).
      erewrite bind_returned
        by (by apply (dimmer_set_brightness_spec _ _ d)).
      erewrite bind_returned
        by (apply (dimmer_reset_spec _ d1); apply lookup_insert_eq).
      reflexivity.
    + unfold extends. simpl. rewrite <- !app_assoc. split_and!; try done.
      eexists. split; [done |].
      constructor; [done |]. constructor; [done |].
      apply Forall_fmap, Forall_true. done.
  - eexists _, _. split.
    + erewrite try_raised; [apply print_spec |].
      rewrite (bind_returned _ _ _ _ _ Hs1), (bind_returned _ _ _ _ _ Hs2).
      by apply bind_raised, dimmer_set_brightness_missing.
    + unfold extends. simpl. rewrite <- !app_assoc. split_and!; try done.
      eexists. split; [done |]. by repeat constructor.
Qed.

(** The page switch: one call of [api.set_page], outside any [try]. *)
Lemma run_switch_page_spec target sp s :
  run_switch_page target sp s
  = if bool_decide (sp ≠ 0%Z) then
      if faults s (clock s) (ApiSetPage target (sp - 1))
      then (Raised, advance s 1 [ApiSetPage target (sp - 1)])
      else (Returned tt,
            advance (put_page target (sp - 1) s) 1
              [ApiSetPage target (sp - 1)])
    else (Returned tt, s).
Proof.
  unfold run_switch_page. case_bool_decide; [| done].
  unfold api_set_page, bind, call.
  destruct (faults s (clock s) _); simpl; f_equal; sys_eq.
Qed.

Lemma macro_event_not_dimmer e : macro_event e -> ¬ dimmer_event e.
Proof. destruct e; simpl; tauto. Qed.

Lemma section_events_macro (sections : list string) evss :
  Forall2
    (fun section evs => section_events (section_keys Key_getattr section) evs)
    sections evss ->
  Forall macro_event (concat evss).
Proof.
  induction 1 as [| section evs sections evss Hs _ IH]; [constructor |].
  simpl. apply Forall_app. split; [| done].
  by destruct Hs as (tp & tr & _ & _ & _ & _ & _ & _ & Hm).
Qed.

(** A key-down event that does not wake the display runs the command,
    the macro and the text, none of which can raise, and goes on with the
    brightness step and the page switch. *)
Lemma handle_keypress_first_steps deck_id key d s :
  dimmers s !! deck_id = Some d ->
  (Dimmer.reset d).1.1 = false ->
  let a := buttons s deck_id (pages s deck_id) key in
  ∃ n e_command e_keys e_write,
    handle_keypress py_float Key_getattr deck_id key true s
    = bind (run_brightness deck_id (brightness_change a))
        (fun _ =>
           bind (api_get_button deck_id (pages s deck_id) key)
             (fun a => run_switch_page (target_device a) (switch_page a)))
        (advance (put_dimmer deck_id (Dimmer.reset d).1.2 s) n
           ([DimmerReset deck_id] ++ e_command ++ e_keys ++ e_write))
    ∧ first_steps Key_getattr a s e_command e_keys e_write.
Proof.
  intros Hd Hfalse a. unfold handle_keypress.
  erewrite bind_returned by (by apply dimmer_reset_spec).
  rewrite Hfalse, reset_woke_out, Hfalse. simpl fmap.
  set (s1 := advance _ 0 [DimmerReset deck_id]).
  rewrite (bind_returned _ _ _ _ _ (api_get_page_spec deck_id s1)).
  rewrite (bind_returned _ _ _ _ _ (api_get_button_spec deck_id _ key s1)).
  change (buttons s1 deck_id (pages s1 deck_id) key) with a.
  change (pages s1 deck_id) with (pages s deck_id).
  destruct (emits_run_command (command a) s1) as [n1 H1].
  rewrite (bind_returned _ _ _ _ _ H1).
  rewrite (bind_returned _ _ _ _ _ (api_get_button_spec deck_id _ key _)).
  change (buttons (advance s1 n1 _) deck_id (pages s deck_id) key) with a.
  destruct (emits_run_keys py_float Key_getattr (keys a)
              (advance s1 n1
                 (if nonempty (command a)
                  then Popen (command a)
                       :: (if faults s1 (clock s1) (Popen (command a))
                           then [Print (CommandFailed (command a))] else [])
                  else [])))
    as (evss & [n2 H2] & Hsections).
  rewrite (bind_returned _ _ _ _ _ H2).
  rewrite (bind_returned _ _ _ _ _ (api_get_button_spec deck_id _ key _)).
  match goal with
  | |- context [run_write _ ;; _] =>
      change (buttons (advance (advance s1 n1 _) n2 _) deck_id
                (pages s deck_id) key) with a
  end.
  match goal with
  | |- context [bind (run_write (write a)) _ ?s3] =>
      destruct (emits_run_write (write a) s3) as [n3 H3];
      rewrite (bind_returned _ _ _ _ _ H3);
      rewrite (bind_returned _ _ _ _ _
                 (api_get_button_spec deck_id _ key _));
      change (buttons (advance s3 n3 _) deck_id (pages s deck_id) key)
        with a
  end.
  eexists (n1 + n2 + n3)%nat, _, _, _. split.
  - f_equal. unfold s1. rewrite !advance_advance. f_equal; lia.
  - split_and!; [reflexivity | by exists evss | by eexists].
Qed.

(** C1. A key-down event on a deck whose dimmer's [reset()] returns
    [True] does nothing but that reset: the dispatcher returns with the
    dimmer reset and the callback called once with the normal level; no
    collaborator is called, so no command is spawned, no macro runs, no
    text is typed, no brightness change is applied and no page is
    switched; the pages and the brightness levels are as before. *)
Theorem wake_consumes_keypress deck_id key d s :
  dimmers s !! deck_id = Some d ->
  (Dimmer.reset d).1.1 = true ->
  handle_keypress py_float Key_getattr deck_id key true s
  = (Returned tt,
     {| dimmers := <[deck_id := (Dimmer.reset d).1.2]> (dimmers s);
        pages := pages s; levels := levels s; buttons := buttons s;
        faults := faults s; clock := clock s;
        trace := trace s ++ [DimmerReset deck_id;
                             Callback deck_id (Dimmer.brightness d)] |}).
Proof.
  intros Hd Hwoke. unfold handle_keypress.
  erewrite bind_returned by (by apply dimmer_reset_spec).
  by rewrite Hwoke, reset_woke_out, Hwoke.
Qed.

(** C6, as the code has it. A key-down event that does not wake the
    display attempts every step that is bound, in the fixed order: the
    command, the sections of the macro, the text, the brightness change,
    the page switch. Whatever raises inside the first four is caught
    there and reported, and the later steps run. The page switch is the
    last step and has no handler: the dispatcher raises exactly when the
    call of [api.set_page] does. *)
Theorem steps_attempted_in_order deck_id key d s :
  dimmers s !! deck_id = Some d ->
  (Dimmer.reset d).1.1 = false ->
  let a := buttons s deck_id (pages s deck_id) key in
  ∃ r s' e_command e_keys e_write e_brightness e_page,
    handle_keypress py_float Key_getattr deck_id key true s = (r, s')
    ∧ trace s'
      = trace s ++ [DimmerReset deck_id] ++ e_command ++ e_keys ++ e_write
        ++ e_brightness ++ e_page
    ∧ first_steps Key_getattr a s e_command e_keys e_write
    ∧ (if bool_decide (brightness_change a ≠ 0%Z)
       then ∃ rest,
              e_brightness
              = ApiChangeBrightness deck_id (brightness_change a) :: rest
              ∧ Forall brightness_event rest
       else e_brightness = [])
    ∧ e_page
      = (if bool_decide (switch_page a ≠ 0%Z)
         then [ApiSetPage (target_device a) (switch_page a - 1)]
         else [])
    ∧ r = (if bool_decide (switch_page a ≠ 0%Z)
              && faults s (Nat.pred (clock s'))
                   (ApiSetPage (target_device a) (switch_page a - 1))
           then Raised else Returned tt).
Proof.
  intros Hd Hfalse a.
  destruct (handle_keypress_first_steps deck_id key d s Hd Hfalse)
    as (n & e_command & e_keys & e_write & Hrun & Hfirst).
  fold a in Hrun, Hfirst. rewrite Hrun. clear Hrun.
  set (s4 := advance _ n _).
  destruct (run_brightness_spec deck_id (brightness_change a) s4)
    as (s5 & e_brightness & H5 & (Hpages & Hbuttons & Hfaults & Htrace)
        & Hshape).
  rewrite (bind_returned _ _ _ _ _ H5).
  rewrite (bind_returned _ _ _ _ _ (api_get_button_spec deck_id _ key s5)).
  rewrite Hbuttons.
  change (buttons s4 deck_id (pages s deck_id) key) with a.
  rewrite run_switch_page_spec, Hfaults.
  change (faults s4) with (faults s).
  assert (Hshape' :
            if bool_decide (brightness_change a ≠ 0%Z)
            then ∃ rest,
                   e_brightness
                   = ApiChangeBrightness deck_id (brightness_change a) :: rest
                   ∧ Forall brightness_event rest
            else e_brightness = []).
  { destruct (bool_decide (brightness_change a ≠ 0%Z)); [done |].
    by destruct Hshape. }
  destruct (bool_decide (switch_page a ≠ 0%Z)); simpl.
  - destruct (faults s (clock s5) _) eqn:Hfault;
      eexists _, _, e_command, e_keys, e_write, e_brightness,
        [ApiSetPage (target_device a) (switch_page a - 1)];
      (split; [reflexivity |]); simpl; rewrite Htrace, ?Hfault; simpl;
      (split_and!; try done);
      by repeat (rewrite <- app_assoc || rewrite <- app_comm_cons).
  - eexists _, _, e_command, e_keys, e_write, e_brightness, [].
    split; [reflexivity |]. rewrite Htrace. simpl.
    split_and!; try done.
    rewrite app_nil_r.
    by repeat (rewrite <- app_assoc || rewrite <- app_comm_cons).
Qed.

Lemma first_steps_not_dimmer a s e_command e_keys e_write :
  first_steps Key_getattr a s e_command e_keys e_write ->
  Forall (fun e => ¬ dimmer_event e) (e_command ++ e_keys ++ e_write).
Proof.
  intros (-> & (evss & -> & Hsections) & (failed & ->)).
  rewrite !Forall_app. split_and!.
  - destruct (nonempty (command a)); [| constructor].
    destruct (faults _ _ _); repeat constructor; simpl; tauto.
  - eapply Forall_impl; [| apply macro_event_not_dimmer].
    destruct (nonempty (keys a)); [| by subst].
    by eapply section_events_macro.
  - destruct (nonempty (write a)); [| constructor].
    destruct failed; repeat constructor; simpl; tauto.
Qed.

(** The brightness step when one of its two calls of the API raises: the
    dimmers are as before. *)
Lemma run_brightness_fails deck_id delta s :
  delta ≠ 0%Z ->
  (∀ n, faults s n (ApiChangeBrightness deck_id delta) = true)
  ∨ (∀ n, faults s n (ApiGetBrightness deck_id) = true) ->
  ∃ s' mid,
    run_brightness deck_id delta s = (Returned tt, s')
    ∧ dimmers s' = dimmers s
    ∧ extends s s' (mid ++ [Print BrightnessFailed])
    ∧ Forall (fun e => ¬ dimmer_event e) mid.
Proof.
  intros Hdelta Hfaults.
  destruct (faults s (clock s) (ApiChangeBrightness deck_id delta))
    eqn:Hchange.
  - exists (advance s 1 [ApiChangeBrightness deck_id delta;
                         Print BrightnessFailed]),
      [ApiChangeBrightness deck_id delta].
    split; [by apply run_brightness_change_fails |].
    split_and!; try done. repeat constructor; simpl; tauto.
  - destruct Hfaults as [Hall | Hall]; [by rewrite Hall in Hchange |].
    exists (advance (put_level deck_id (clamp (levels s deck_id + delta)) s) 2
              [ApiChangeBrightness deck_id delta; ApiGetBrightness deck_id;
               Print BrightnessFailed]),
      [ApiChangeBrightness deck_id delta; ApiGetBrightness deck_id].
    split; [by apply run_brightness_get_fails |].
    split_and!; try done. repeat constructor; simpl; tauto.
Qed.

(** C10. When the brightness step of a key-down event fails in
    [api.change_brightness] or in [api.get_brightness], the dimmer of the
    deck stays as the reset at the start of the event left it: its normal
    level is the old one, and between that reset and the end of the event
    the dimmer is neither reset nor is its callback called. The failure
    is reported, and the page switch, when bound, is attempted as the
    next call and sets the page unless it fails itself. *)
Theorem brightness_failure_keeps_dimmer deck_id key d s :
  dimmers s !! deck_id = Some d ->
  (Dimmer.reset d).1.1 = false ->
  let a := buttons s deck_id (pages s deck_id) key in
  brightness_change a ≠ 0%Z ->
  (∀ n, faults s n (ApiChangeBrightness deck_id (brightness_change a)) = true)
  ∨ (∀ n, faults s n (ApiGetBrightness deck_id) = true) ->
  ∃ r s' before e_page,
    handle_keypress py_float Key_getattr deck_id key true s = (r, s')
    ∧ dimmers s' = <[deck_id := (Dimmer.reset d).1.2]> (dimmers s)
    ∧ Dimmer.brightness (Dimmer.reset d).1.2 = Dimmer.brightness d
    ∧ trace s'
      = trace s ++ [DimmerReset deck_id] ++ before
        ++ [Print BrightnessFailed] ++ e_page
    ∧ Forall (fun e => ¬ dimmer_event e) before
    ∧ e_page
      = (if bool_decide (switch_page a ≠ 0%Z)
         then [ApiSetPage (target_device a) (switch_page a - 1)]
         else [])
    ∧ r = (if bool_decide (switch_page a ≠ 0%Z)
              && faults s (Nat.pred (clock s'))
                   (ApiSetPage (target_device a) (switch_page a - 1))
           then Raised else Returned tt)
    ∧ (switch_page a ≠ 0%Z -> r = Returned tt ->
       pages s' (target_device a) = (switch_page a - 1)%Z).
Proof.
  intros Hd Hfalse a Hdelta Hfaults.
  destruct (handle_keypress_first_steps deck_id key d s Hd Hfalse)
    as (n & e_command & e_keys & e_write & Hrun & Hfirst).
  fold a in Hrun, Hfirst. rewrite Hrun. clear Hrun.
  set (s4 := advance _ n _).
  destruct (run_brightness_fails deck_id (brightness_change a) s4 Hdelta
              Hfaults)
    as (s5 & mid & H5 & Hdimmers & (Hpages & Hbuttons & Hfaults5 & Htrace)
        & Hmid).
  rewrite (bind_returned _ _ _ _ _ H5).
  rewrite (bind_returned _ _ _ _ _ (api_get_button_spec deck_id _ key s5)).
  rewrite Hbuttons.
  change (buttons s4 deck_id (pages s deck_id) key) with a.
  rewrite run_switch_page_spec, Hfaults5.
  change (faults s4) with (faults s).
  pose proof (reset_brightness d) as (Hnormal & _ & _).
  assert (Hbefore :
            Forall (fun e => ¬ dimmer_event e)
              ((e_command ++ e_keys ++ e_write) ++ mid)).
  { apply Forall_app. split; [| done]. by eapply first_steps_not_dimmer. }
  destruct (decide (switch_page a = 0%Z)) as [Hpage | Hpage].
  - rewrite (bool_decide_false (switch_page a ≠ 0%Z)) by tauto. simpl.
    exists (Returned tt), s5, ((e_command ++ e_keys ++ e_write) ++ mid), [].
    rewrite Htrace. split_and!; try done.
    simpl. rewrite ?app_nil_r.
    by repeat (rewrite <- app_assoc || rewrite <- app_comm_cons).
  - rewrite (bool_decide_true _ Hpage). simpl.
    destruct (faults s (clock s5) _) eqn:Hfault;
      eexists _, _, ((e_command ++ e_keys ++ e_write) ++ mid),
        [ApiSetPage (target_device a) (switch_page a - 1)];
      (split; [reflexivity |]); simpl; rewrite Htrace, ?Hfault; simpl;
      (split_and!; try done);
      try (by repeat (rewrite <- app_assoc || rewrite <- app_comm_cons)).
    intros _ _. unfold update. by rewrite bool_decide_true.
Qed.

End DispatcherFacts.

(** * More properties of the dimmer *)

Section DimmerMore.

Import Dimmer.

Implicit Types (d : Dimmer.t) (tm : option QTimer.t).

Lemma stop_timer_idemp tm : stop_timer (stop_timer tm) = stop_timer tm.
Proof. by destruct tm. Qed.

(** X1. A second [reset()] right after a [reset()] returns [False], calls the
    callback with nothing and changes nothing. *)
Theorem reset_twice d :
  reset (reset d).1.2 = (false, (reset d).1.2, []).
Proof.
  unfold reset.
  destruct (bool_decide (timeout d ≠ 0)) eqn:Htimeout,
    (bool_decide (dimmer_brightness d ≠ brightness d)) eqn:Hlevel;
    simpl; rewrite ?Htimeout, ?Hlevel, ?stop_timer_idemp;
    rewrite ?(bool_decide_false (brightness d ≠ brightness d)) by tauto;
    reflexivity.
Qed.

(** X2. [stop()] tells the display the normal level and leaves no timer
    running; while stopped [dim] does nothing; the [reset()] that follows
    reports no wake-up and calls the callback with nothing. *)
Theorem stop_then_reset d :
  (stop d).2 = [brightness d]
  ∧ running (timer (stop d).1) = false
  ∧ running (change_timer (stop d).1) = false
  ∧ (∀ toggle, dim toggle (stop d).1 = ((stop d).1, []))
  ∧ (reset (stop d).1).1.1 = false
  ∧ (reset (stop d).1).2 = []
  ∧ stopped (reset (stop d).1).1.2 = false.
Proof.
  split_and!; try done.
  - apply running_stop_timer.
  - apply running_stop_timer.
  - unfold reset. simpl.
    by rewrite (bool_decide_false (brightness d ≠ brightness d)) by tauto.
  - unfold reset. simpl.
    by rewrite (bool_decide_false (brightness d ≠ brightness d)) by tauto.
  - unfold reset. simpl.
    by rewrite (bool_decide_false (brightness d ≠ brightness d)) by tauto.
Qed.

Lemma change_brightness_timers d :
  running (timer d) = false -> stopped d = false ->
  timers_ok (change_brightness d).1.
Proof.
  intros Htimer Hstopped. unfold change_brightness, timers_ok.
  destruct (bool_decide (dimmer_brightness d ≠ 0)); simpl;
    rewrite Htimer, Hstopped; by split.
Qed.

Lemma reset_timers d : timers_ok (reset d).1.2.
Proof.
  unfold reset, timers_ok.
  destruct (bool_decide (dimmer_brightness d ≠ brightness d)); simpl;
    rewrite running_stop_timer; by split.
Qed.

Lemma use_exec_timers u d d' out :
  timers_ok d -> use_exec u d = Some (d', out) -> timers_ok d'.
Proof.
  intros Hok Hexec. pose proof Hok as [Hexcl Hstopped].
  destruct u as [[| | toggle | |] | value | value]; simpl in Hexec.
  - pose proof (reset_timers d) as Hreset.
    destruct (reset d) as [[woke d1] out1]. by simplify_eq.
  - unfold stop in Hexec. simplify_eq. unfold timers_ok. simpl.
    by rewrite !running_stop_timer.
  - unfold dim in Hexec.
    destruct (stopped d) eqn:Hs; [by simplify_eq |].
    destruct (toggle && bool_decide (dimmer_brightness d = 0)).
    { pose proof (reset_timers d) as Hreset.
      destruct (reset d) as [[woke d1] out1]. by simplify_eq. }
    destruct (running (timer d)) eqn:Hrun; [| by simplify_eq].
    destruct (bool_decide (change_timer (stop_idle d) = None)
              && bool_decide (dimmer_brightness (stop_idle d) ≠ 0)).
    + injection Hexec as Hexec.
      replace d' with (change_brightness (stop_idle d)).1
        by by rewrite Hexec.
      apply change_brightness_timers; [apply running_stop_timer | done].
    + simplify_eq. unfold timers_ok. simpl.
      rewrite running_stop_timer. split; [done |]. by rewrite Hs.
  - unfold idle_timeout in Hexec.
    destruct (running (timer d)) eqn:Hrun; [| done].
    injection Hexec as Hexec.
    match type of Hexec with
    | change_brightness ?d0 = _ =>
        replace d' with (change_brightness d0).1 by by rewrite Hexec
    end.
    apply change_brightness_timers; [apply running_stop_timer |].
    simpl. destruct (stopped d); [| done].
    destruct Hstopped as [Hno _]; [done |]. congruence.
  - unfold ramp_tick in Hexec.
    destruct (running (change_timer d)) eqn:Hrun; [| done].
    injection Hexec as Hexec.
    match type of Hexec with
    | change_brightness ?d0 = _ =>
        replace d' with (change_brightness d0).1 by by rewrite Hexec
    end.
    apply change_brightness_timers; simpl.
    + destruct (running (timer d)) eqn:Htimer; [| done].
      specialize (Hexcl eq_refl). congruence.
    + destruct (stopped d); [| done].
      destruct Hstopped as [_ Hno]; [done |]. congruence.
  - by simplify_eq.
  - by simplify_eq.
Qed.

(** X3. However a dimmer is used after its construction, its idle timer and
    its ramp timer never run at the same time, and while it is stopped
    neither of them runs. *)
Theorem timers_never_overlap (t b : Z) us d out :
  use_run us (new t b) = Some (d, out) -> timers_ok d.
Proof.
  assert (Hgen : ∀ us d0 d out,
            timers_ok d0 -> use_run us d0 = Some (d, out) -> timers_ok d).
  { clear. induction us as [| u us IH]; intros d0 d out Hok Hrun;
      simpl in Hrun; [by simplify_eq |].
    destruct (use_exec u d0) as [[d1 out1] |] eqn:Hexec; [| done].
    destruct (use_run us d1) as [[d2 out2] |] eqn:Hrest; [| done].
    simplify_eq. eapply IH; [| exact Hrest].
    by eapply use_exec_timers. }
  apply Hgen. by split.
Qed.

Lemma last_shown_app before out out' :
  last_shown before (out ++ out') = last_shown (last_shown before out) out'.
Proof.
  unfold last_shown. destruct out' as [| v out'] using rev_ind.
  - by rewrite app_nil_r.
  - by rewrite app_assoc, !last_snoc.
Qed.

Lemma reset_sync d shown :
  in_sync d shown -> in_sync (reset d).1.2 (last_shown shown (reset d).2).
Proof.
  unfold in_sync, reset. intros Hsync.
  by destruct (bool_decide (dimmer_brightness d ≠ brightness d)).
Qed.

Lemma change_brightness_sync d shown :
  in_sync d shown ->
  in_sync (change_brightness d).1 (last_shown shown (change_brightness d).2).
Proof.
  unfold in_sync, change_brightness. intros Hsync.
  by destruct (bool_decide (dimmer_brightness d ≠ 0)).
Qed.

Lemma use_exec_sync u d d' out shown :
  in_sync d shown -> use_exec u d = Some (d', out) ->
  in_sync d' (last_shown shown out).
Proof.
  intros Hsync Hexec.
  destruct u as [[| | toggle | |] | value | value]; simpl in Hexec.
  - pose proof (reset_sync d shown Hsync) as Hreset.
    destruct (reset d) as [[woke d1] out1]. by simplify_eq.
  - unfold stop in Hexec. by simplify_eq.
  - unfold dim in Hexec.
    destruct (stopped d); [by simplify_eq |].
    destruct (toggle && bool_decide (dimmer_brightness d = 0)).
    { pose proof (reset_sync d shown Hsync) as Hreset.
      destruct (reset d) as [[woke d1] out1]. by simplify_eq. }
    destruct (running (timer d)); [| by simplify_eq].
    destruct (bool_decide (change_timer (stop_idle d) = None)
              && bool_decide (dimmer_brightness (stop_idle d) ≠ 0)).
    + injection Hexec as Hexec.
      pose proof (change_brightness_sync (stop_idle d) shown Hsync) as Hcb.
      by rewrite Hexec in Hcb.
    + by simplify_eq.
  - unfold idle_timeout in Hexec.
    destruct (running (timer d)); [| done]. injection Hexec as Hexec.
    match type of Hexec with
    | change_brightness ?d0 = _ =>
        pose proof (change_brightness_sync d0 shown Hsync) as Hcb
    end.
    by rewrite Hexec in Hcb.
  - unfold ramp_tick in Hexec.
    destruct (running (change_timer d)); [| done]. injection Hexec as Hexec.
    match type of Hexec with
    | change_brightness ?d0 = _ =>
        pose proof (change_brightness_sync d0 shown Hsync) as Hcb
    end.
    by rewrite Hexec in Hcb.
  - by simplify_eq.
  - by simplify_eq.
Qed.

(** X4. However a dimmer is used after its construction, its current level
    is the level its callback was last called with; it is the initial -1
    as long as the callback was never called. *)
Theorem display_in_sync (t b : Z) us d out :
  use_run us (new t b) = Some (d, out) ->
  dimmer_brightness d = default (-1) (last out).
Proof.
  assert (Hgen : ∀ us d0 d out shown,
            in_sync d0 shown -> use_run us d0 = Some (d, out) ->
            in_sync d (last_shown shown out)).
  { clear. induction us as [| u us IH]; intros d0 d out shown Hsync Hrun;
      simpl in Hrun; [by simplify_eq |].
    destruct (use_exec u d0) as [[d1 out1] |] eqn:Hexec; [| done].
    destruct (use_run us d1) as [[d2 out2] |] eqn:Hrest; [| done].
    simplify_eq. rewrite last_shown_app. eapply IH; [| exact Hrest].
    by eapply use_exec_sync. }
  intros Hrun.
  pose proof (Hgen us (new t b) d out None eq_refl Hrun) as Hsync.
  unfold in_sync, last_shown in Hsync. by destruct (last out).
Qed.

(** A new dimmer with a timeout counts down after its first [reset()]. *)
Lemma counting_after_first_reset (t b : Z) :
  t ≠ 0 -> b ≠ -1 -> (reset (new t b)).1.2 = counting t b.
Proof.
  intros Ht Hb. unfold reset, new, counting. simpl.
  rewrite (bool_decide_true (t ≠ 0)) by done.
  by rewrite (bool_decide_true (-1 ≠ b)) by (by intros ?).
Qed.

(** Running a sequence of operations in two parts. *)
Lemma run_app os os' d d1 out1 :
  run os d = Some (d1, out1) ->
  run (os ++ os') d
  = match run os' d1 with
    | Some (d2, out2) => Some (d2, out1 ++ out2)
    | None => None
    end.
Proof.
  revert d out1. induction os as [| o os IH]; intros d out1 Hos; simpl in *.
  - simplify_eq. by destruct (run os' d1) as [[? ?] |].
  - destruct (exec o d) as [[d' out'] |]; [| done].
    destruct (run os d') as [[d'' out''] |] eqn:Hrest; [| done].
    simplify_eq. rewrite (IH _ _ Hrest).
    destruct (run os' d1) as [[? ?] |]; [| done].
    by rewrite app_assoc.
Qed.

(** [m] ramp ticks of a dimmer that is ramping at level [m] bring it to
    level 0, one step at a time. *)
Lemma ramp_ticks (m : nat) : ∀ d,
  change_timer d = Some (QTimer.armed 10) ->
  dimmer_brightness d = Z.of_nat m ->
  run (replicate m RampTick) d
  = Some (mk (timeout d) (brightness d) (stopped d) 0 (timer d)
            (Some (QTimer.armed 10)),
          countdown m).
Proof.
  induction m as [| m IH]; intros d Htimer Hlevel.
  - destruct d. simpl in *. by subst.
  - cbn [replicate run exec]. unfold ramp_tick. rewrite Htimer. simpl.
    unfold change_brightness. simpl.
    rewrite bool_decide_true by lia.
    rewrite IH; [| done | simpl; lia]. simpl.
    do 3 f_equal. lia.
Qed.

(** The last tick of a ramp: at level 0 it drops the ramp timer and
    reports nothing. *)
Lemma ramp_last_tick d :
  change_timer d = Some (QTimer.armed 10) -> dimmer_brightness d = 0 ->
  ramp_tick d
  = Some (mk (timeout d) (brightness d) (stopped d) 0 (timer d) None, []).
Proof.
  intros Htimer Hlevel. unfold ramp_tick. rewrite Htimer. simpl.
  unfold change_brightness. simpl. rewrite Hlevel. reflexivity.
Qed.

(** X5. The automatic fade: when the idle timer of a dimmer that shows level
    [n] > 0 expires, [n] timer expiries in all tell the display [n]-1
    down to 0, one more ends the ramp, and then no timer is left
    running. *)
Theorem ramp_runs_to_floor (t b : Z) (m : nat) :
  b = Z.of_nat (S m) ->
  run (IdleTimeout :: replicate m RampTick ++ [RampTick]) (counting t b)
  = Some (mk t b false 0 (Some (QTimer.stop (QTimer.armed (t * 1000)))) None,
          countdown (S m))
  ∧ exec IdleTimeout
      (mk t b false 0 (Some (QTimer.stop (QTimer.armed (t * 1000)))) None)
    = None
  ∧ exec RampTick
      (mk t b false 0 (Some (QTimer.stop (QTimer.armed (t * 1000)))) None)
    = None.
Proof.
  intros ->. split; [| done].
  cbn [run exec app]. unfold idle_timeout, counting. simpl running.
  cbn iota. unfold change_brightness. simpl.
  erewrite run_app; cycle 1.
  { apply ramp_ticks; [done | simpl; lia]. }
  cbn [run exec]. rewrite ramp_last_tick by done. simpl.
  rewrite app_nil_r. do 3 f_equal. lia.
Qed.

(** X6. The manual toggle, for any dimmer that counts down at its normal
    level [n] > 0 with a timeout other than 0, for which [reset()]
    returns. When no ramp timer is left from before, [dim(True)] starts
    the ramp at once; when the ramp has run to its end, a second
    [dim(True)] tells the display the normal level again and the dimmer
    counts down anew, with no ramp timer: for a dimmer that started like
    this, it is back in the state it started from. When a ramp timer is
    left from a ramp that a [reset()] cancelled, [dim(True)] only stops
    the idle timer: no ramp starts, the callback is not called, and a
    second [dim(True)] does nothing. *)
Theorem toggle_round_trip d (m : nat) :
  stopped d = false ->
  running (timer d) = true ->
  timeout d ≠ 0 ->
  reset_raises d = false ->
  brightness d = Z.of_nat (S m) ->
  dimmer_brightness d = brightness d ->
  (change_timer d = None ->
   run (Dim true :: replicate m RampTick ++ [RampTick; Dim true]) d
   = Some (counting (timeout d) (brightness d),
           countdown (S m) ++ [brightness d]))
  ∧ (change_timer d ≠ None ->
     dim true d = (stop_idle d, [])
     ∧ running (timer (stop_idle d)) = false
     ∧ running (change_timer (stop_idle d)) = running (change_timer d)
     ∧ dimmer_brightness (stop_idle d) = brightness d
     ∧ dim true (stop_idle d) = (stop_idle d, [])).
Proof.
  intros Hstopped Hidle Ht _ Hb Hlevel.
  destruct d as [t b st cur tm ctm]. simpl in *. subst st cur b.
  split.
  - intros ->. cbn [run exec]. unfold dim. simpl. rewrite Hidle. simpl.
    unfold change_brightness. simpl.
    erewrite run_app; cycle 1.
    { apply ramp_ticks; [done | simpl; lia]. }
    cbn [run exec]. rewrite ramp_last_tick by done. simpl.
    unfold dim, reset. simpl.
    rewrite (bool_decide_true (t ≠ 0)) by done.
    unfold counting. do 3 f_equal. lia.
  - intros Hstale. unfold dim. simpl. rewrite Hidle.
    rewrite (bool_decide_false (ctm = None)) by done. simpl.
    rewrite running_stop_timer. by split_and!.
Qed.

(** X7. With a timeout of 0, after [reset()] no timer of the dimmer runs, so
    no timer can expire, and [dim], with or without toggle, does nothing
    at a normal level other than 0: without automatic dimming there is no
    manual dimming either. *)
Theorem no_timeout_no_dimming d :
  timeout d = 0 ->
  running (timer (reset d).1.2) = false
  ∧ running (change_timer (reset d).1.2) = false
  ∧ exec IdleTimeout (reset d).1.2 = None
  ∧ exec RampTick (reset d).1.2 = None
  ∧ (brightness d ≠ 0 ->
     ∀ toggle, dim toggle (reset d).1.2 = ((reset d).1.2, [])).
Proof.
  intros Ht.
  assert (Htimer : running (timer (reset d).1.2) = false).
  { unfold reset. rewrite Ht. simpl.
    destruct (bool_decide (dimmer_brightness d ≠ brightness d)); simpl;
      apply running_stop_timer. }
  assert (Hramp : running (change_timer (reset d).1.2) = false).
  { unfold reset.
    destruct (bool_decide (dimmer_brightness d ≠ brightness d)); simpl;
      apply running_stop_timer. }
  pose proof (reset_brightness d) as (_ & _ & Hlevel).
  split_and!; try done.
  - simpl. unfold idle_timeout. by rewrite Htimer.
  - simpl. unfold ramp_tick. by rewrite Hramp.
  - intros Hb toggle. unfold dim.
    assert (Hstopped : stopped (reset d).1.2 = false).
    { unfold reset.
      by destruct (bool_decide (dimmer_brightness d ≠ brightness d)). }
    rewrite Hstopped, Htimer, Hlevel.
    rewrite (bool_decide_false (brightness d = 0)) by done.
    by rewrite andb_false_r.
Qed.

End DimmerMore.

(** * More properties of the macros *)

Section MacroMore.

Variable py_float : string -> option float.
Variable Key_getattr : string -> option keyval.

Lemma remove_spaces_lstrip (s : string) :
  remove_spaces (lstrip s) = lstrip (remove_spaces s).
Proof.
  induction s as [| c s IH]; [done |]. cbn [lstrip remove_spaces].
  destruct (Ascii.eqb c " ") eqn:Hspace.
  - apply Ascii.eqb_eq in Hspace. subst c. exact IH.
  - cbn [lstrip]. destruct (isspace c); [exact IH |].
    cbn [remove_spaces]. by rewrite Hspace.
Qed.

Lemma remove_spaces_rev_app (s acc : string) :
  remove_spaces (String.rev_app s acc)
  = String.rev_app (remove_spaces s) (remove_spaces acc).
Proof.
  revert acc. induction s as [| c s IH]; intros acc; [done |].
  cbn [String.rev_app remove_spaces]. rewrite IH. cbn [remove_spaces].
  by destruct (Ascii.eqb c " ").
Qed.

Lemma remove_spaces_rev (s : string) :
  remove_spaces (String.rev s) = String.rev (remove_spaces s).
Proof. apply remove_spaces_rev_app. Qed.

Lemma remove_spaces_app (s s' : string) :
  remove_spaces (s ++ s') = (remove_spaces s ++ remove_spaces s')%string.
Proof.
  induction s as [| c s IH]; [done |]. simpl.
  destruct (Ascii.eqb c " "); [done |]. simpl. by rewrite IH.
Qed.

(** Removing the spaces and stripping the ends can be done in either
    order. *)
Lemma remove_spaces_strip (s : string) :
  remove_spaces (strip s) = strip (remove_spaces s).
Proof.
  unfold strip.
  by rewrite remove_spaces_rev, remove_spaces_lstrip, remove_spaces_rev,
    remove_spaces_lstrip.
Qed.

(** The sections of a macro depend on the macro without its spaces
    only. *)
Lemma sections_remove_spaces (keys keys' : string) :
  remove_spaces keys = remove_spaces keys' -> sections keys = sections keys'.
Proof.
  intros Heq. unfold sections. by rewrite !remove_spaces_strip, Heq.
Qed.

(** X8. Spaces do not matter in a macro: a space put anywhere into it leaves
    its sections as they are, and the macro runs the same, as long as
    the macro without the space is not the empty string (which is not run
    at all). *)
Theorem spaces_are_insignificant (before after : string) (s : Sys) :
  sections (before ++ " " ++ after) = sections (before ++ after)
  ∧ (nonempty (before ++ after) = true ->
     run_keys py_float Key_getattr (before ++ " " ++ after) s
     = run_keys py_float Key_getattr (before ++ after) s).
Proof.
  assert (Hsections :
            sections (before ++ " " ++ after) = sections (before ++ after)).
  { apply sections_remove_spaces. by rewrite !remove_spaces_app. }
  split; [done |]. intros Hne. unfold run_keys. rewrite Hne, Hsections.
  by destruct before.
Qed.

End MacroMore.

(** * More properties of the dispatcher *)

Section DispatcherMore.

Variable py_float : string -> option float.
Variable Key_getattr : string -> option keyval.

Implicit Types (s : Sys) (d : Dimmer.t) (evs : list event).

(** X9. A key event of a deck that has no dimmer: the key-down event
    raises the [KeyError] of [dimmers[deck_id]] before anything else is
    done, the key-up event returns; in both cases no call is made and the
    state is as before. *)
Theorem keypress_without_dimmer deck_id key (state : bool) s :
  dimmers s !! deck_id = None ->
  handle_keypress py_float Key_getattr deck_id key state s
  = (if state then Raised else Returned tt, s).
Proof.
  intros Hd. destruct state; [| reflexivity]. unfold handle_keypress.
  apply bind_raised. unfold dimmer_reset. apply bind_raised.
  unfold the_dimmer, bind, get. by rewrite Hd.
Qed.

(** [reset()] of a dimmer that is at its normal level reports no
    wake-up and does not call the callback. *)
Lemma reset_at_normal d :
  Dimmer.dimmer_brightness d = Dimmer.brightness d ->
  (Dimmer.reset d).1.1 = false ∧ (Dimmer.reset d).2 = [].
Proof.
  intros Hlevel. unfold Dimmer.reset.
  by rewrite bool_decide_false by (by intros ?).
Qed.

(** The last two steps of the dispatcher, from any state: the brightness
    step returns, and the page switch sets the page of the target deck
    unless its call of [api.set_page] raises. *)
Lemma last_steps_spec deck_id delta page key s :
  let a := buttons s deck_id page key in
  ∃ r s' e_brightness e_page,
    bind (run_brightness deck_id delta)
      (fun _ =>
         bind (api_get_button deck_id page key)
           (fun a => run_switch_page (target_device a) (switch_page a))) s
    = (r, s')
    ∧ trace s' = trace s ++ e_brightness ++ e_page
    ∧ (if bool_decide (delta ≠ 0%Z)
       then ∃ rest,
              e_brightness = ApiChangeBrightness deck_id delta :: rest
              ∧ Forall brightness_event rest
       else e_brightness = [])
    ∧ e_page
      = (if bool_decide (switch_page a ≠ 0%Z)
         then [ApiSetPage (target_device a) (switch_page a - 1)]
         else [])
    ∧ pages s'
      = (if bool_decide (switch_page a ≠ 0%Z)
            && negb (faults s (Nat.pred (clock s'))
                       (ApiSetPage (target_device a) (switch_page a - 1)))
         then update (pages s) (target_device a) (switch_page a - 1)
         else pages s)
    ∧ r = (if bool_decide (switch_page a ≠ 0%Z)
              && faults s (Nat.pred (clock s'))
                   (ApiSetPage (target_device a) (switch_page a - 1))
           then Raised else Returned tt).
Proof.
  intros a.
  destruct (run_brightness_spec py_float Key_getattr deck_id delta s)
    as (s5 & e_brightness & H5 & (Hpages & Hbuttons & Hfaults & Htrace)
        & Hbrightness).
  assert (Hshape : if bool_decide (delta ≠ 0%Z)
                   then ∃ rest,
                          e_brightness
                          = ApiChangeBrightness deck_id delta :: rest
                          ∧ Forall brightness_event rest
                   else e_brightness = []).
  { destruct (bool_decide (delta ≠ 0%Z)); [done | by destruct Hbrightness]. }
  rewrite (bind_returned _ _ _ _ _ H5).
  rewrite (bind_returned _ _ _ _ _ (api_get_button_spec deck_id _ key s5)).
  rewrite Hbuttons. fold a.
  rewrite run_switch_page_spec, Hfaults.
  destruct (bool_decide (switch_page a ≠ 0%Z)); simpl.
  - destruct (faults s (clock s5) _) eqn:Hfault;
      eexists _, _, e_brightness, [ApiSetPage _ _];
      (split; [reflexivity |]); simpl; rewrite Htrace, ?Hfault, ?Hpages;
      simpl; split_and!; try done; by rewrite <- app_assoc.
  - eexists _, _, e_brightness, []. split; [reflexivity |].
    rewrite app_nil_r. by split_and!.
Qed.

(** X10. The page switch of a key-down event that does not wake the
    display. When no page is bound, the dispatcher returns and every deck
    keeps its page. When a page [n] is bound, the dispatcher returns
    exactly when its call of [api.set_page] does, whatever else failed
    before, and then [n] - 1 is the active page of the target deck, which
    need not be the deck of the key, and every other deck keeps its
    page. *)
Theorem page_switch_sets_target_page deck_id key d s :
  dimmers s !! deck_id = Some d ->
  (Dimmer.reset d).1.1 = false ->
  let a := buttons s deck_id (pages s deck_id) key in
  ∃ r s',
    handle_keypress py_float Key_getattr deck_id key true s = (r, s')
    ∧ (switch_page a = 0%Z -> r = Returned tt ∧ pages s' = pages s)
    ∧ (switch_page a ≠ 0%Z ->
       (r = Returned tt
        ↔ faults s (Nat.pred (clock s'))
            (ApiSetPage (target_device a) (switch_page a - 1)) = false)
       ∧ (r = Returned tt ->
          pages s' (target_device a) = (switch_page a - 1)%Z
          ∧ ∀ other, other ≠ target_device a ->
                     pages s' other = pages s other)).
Proof.
  intros Hd Hfalse a.
  destruct (handle_keypress_first_steps py_float Key_getattr deck_id key d s
              Hd Hfalse)
    as (n & e_command & e_keys & e_write & Hrun & _).
  fold a in Hrun. rewrite Hrun. clear Hrun.
  set (s4 := advance _ n _).
  destruct (last_steps_spec deck_id (brightness_change a) (pages s deck_id)
              key s4)
    as (r & s' & e_brightness & e_page & Hlast & _ & _ & _ & Hpages & Hr).
  change (buttons s4 deck_id (pages s deck_id) key) with a in Hpages, Hr.
  change (pages s4) with (pages s) in Hpages.
  change (faults s4) with (faults s) in Hpages, Hr.
  exists r, s'. split; [exact Hlast |].
  destruct (decide (switch_page a = 0%Z)) as [Hzero | Hpage].
  - rewrite (bool_decide_false (switch_page a ≠ 0%Z)) in Hpages, Hr by tauto.
    simpl in Hpages, Hr. rewrite Hpages. by split.
  - rewrite (bool_decide_true (switch_page a ≠ 0%Z)) in Hpages, Hr by done.
    simpl in Hpages, Hr. split; [done |]. intros _.
    destruct (faults s (Nat.pred (clock s'))
                (ApiSetPage (target_device a) (switch_page a - 1)));
      simpl in Hpages, Hr; rewrite Hpages, Hr.
    + split; [split; intros [=] | intros [=]].
    + split; [done |]. intros _. split.
      * unfold update. by rewrite bool_decide_true.
      * intros other Hother. unfold update. by rewrite bool_decide_false.
Qed.

Lemma clamp_range level : (0 <= clamp level <= 100)%Z.
Proof. unfold clamp. lia. Qed.

(** The brightness step when both calls of the API return. *)
Lemma run_brightness_returns deck_id delta d s :
  delta ≠ 0%Z ->
  faults s (clock s) (ApiChangeBrightness deck_id delta) = false ->
  faults s (S (clock s)) (ApiGetBrightness deck_id) = false ->
  dimmers s !! deck_id = Some d ->
  let level := clamp (levels s deck_id + delta) in
  let d1 := assign_brightness level d in
  run_brightness deck_id delta s
  = (Returned tt,
     advance (put_dimmer deck_id (Dimmer.reset d1).1.2
                (put_level deck_id level s)) 2
       ([ApiChangeBrightness deck_id delta; ApiGetBrightness deck_id;
         DimmerReset deck_id]
        ++ (Callback deck_id <$> (Dimmer.reset d1).2))).
Proof.
  intros Hdelta Hchange Hget Hd level d1. unfold run_brightness.
  rewrite bool_decide_true by done.
  apply try_returned.
  erewrite bind_returned by (by apply api_change_brightness_returns).
  erewrite bind_returned by (by apply api_get_brightness_returns).
  erewrite bind_returned by (by apply (dimmer_set_brightness_spec _ _ d)).
  erewrite bind_returned; cycle 1.
  { apply (dimmer_reset_spec _ d1). simpl.
    unfold update. rewrite bool_decide_true by done.
    apply lookup_insert_eq. }
  unfold ret. f_equal; sys_eq. by rewrite insert_insert_eq.
Qed.

(** X11. A brightness change that succeeds, in a key-down event that does not
    wake the display: the level that [api.get_brightness] reports after
    the change, which is within 0-100, becomes the normal level and the
    current level of the dimmer of the deck; the dimmer is reset once
    more, after the two calls of the API, and its callback is called with
    the new level exactly when this differs from the old normal level. *)
Theorem brightness_change_applied deck_id key d s :
  dimmers s !! deck_id = Some d ->
  (Dimmer.reset d).1.1 = false ->
  let a := buttons s deck_id (pages s deck_id) key in
  brightness_change a ≠ 0%Z ->
  (∀ n, faults s n (ApiChangeBrightness deck_id (brightness_change a))
        = false) ->
  (∀ n, faults s n (ApiGetBrightness deck_id) = false) ->
  ∃ r s' d' before after,
    handle_keypress py_float Key_getattr deck_id key true s = (r, s')
    ∧ dimmers s' !! deck_id = Some d'
    ∧ levels s' deck_id = clamp (levels s deck_id + brightness_change a)
    ∧ (0 <= levels s' deck_id <= 100)%Z
    ∧ Dimmer.brightness d' = levels s' deck_id
    ∧ Dimmer.dimmer_brightness d' = levels s' deck_id
    ∧ Dimmer.stopped d' = false
    ∧ Dimmer.timeout d' = Dimmer.timeout d
    ∧ trace s'
      = trace s ++ [DimmerReset deck_id] ++ before
        ++ [ApiChangeBrightness deck_id (brightness_change a);
            ApiGetBrightness deck_id; DimmerReset deck_id]
        ++ (if bool_decide (levels s' deck_id ≠ Dimmer.brightness d)
            then [Callback deck_id (levels s' deck_id)] else [])
        ++ after
    ∧ Forall (fun e => ¬ dimmer_event e) (before ++ after).
Proof.
  intros Hd Hfalse a Hdelta Hchange Hget.
  destruct (handle_keypress_first_steps py_float Key_getattr deck_id key d s
              Hd Hfalse)
    as (n & e_command & e_keys & e_write & Hrun & Hfirst).
  fold a in Hrun, Hfirst. rewrite Hrun. clear Hrun.
  set (d0 := (Dimmer.reset d).1.2).
  set (s4 := advance (put_dimmer deck_id d0 s) n _).
  set (level := clamp (levels s deck_id + brightness_change a)).
  set (d1 := assign_brightness level d0).
  assert (Hd4 : dimmers s4 !! deck_id = Some d0) by apply lookup_insert_eq.
  pose proof (run_brightness_returns deck_id (brightness_change a) d0 s4
                Hdelta (Hchange _) (Hget _) Hd4) as H5.
  change (levels s4 deck_id) with (levels s deck_id) in H5.
  fold level d1 in H5.
  rewrite (bind_returned _ _ _ _ _ H5).
  rewrite (bind_returned _ _ _ _ _ (api_get_button_spec deck_id _ key _)).
  simpl buttons. fold a.
  rewrite run_switch_page_spec. fold d1.
  pose proof (reset_brightness d) as (Hb0 & Ht0 & Hcur0).
  fold d0 in Hb0, Ht0, Hcur0.
  pose proof (reset_brightness d1) as (Hb1 & Ht1 & Hcur1).
  assert (Hout : (Dimmer.reset d1).2
                 = if bool_decide (level ≠ Dimmer.brightness d)
                   then [level] else []).
  { unfold Dimmer.reset. simpl. rewrite Hcur0.
    destruct (decide (level = Dimmer.brightness d)) as [Heq | Hne].
    - rewrite (bool_decide_false (level ≠ Dimmer.brightness d)) by tauto.
      by rewrite (bool_decide_false (Dimmer.brightness d ≠ level))
        by (intros Hne; by apply Hne).
    - rewrite (bool_decide_true (level ≠ Dimmer.brightness d)) by done.
      by rewrite (bool_decide_true (Dimmer.brightness d ≠ level))
        by (intros Heq; by apply Hne). }
  assert (Hstopped : Dimmer.stopped (Dimmer.reset d1).1.2 = false).
  { unfold Dimmer.reset.
    by destruct (bool_decide (Dimmer.dimmer_brightness d1
                               ≠ Dimmer.brightness d1)). }
  assert (Hlevel : update (levels s) deck_id level deck_id = level).
  { unfold update. by rewrite bool_decide_true. }
  assert (Hnd : Forall (fun e => ¬ dimmer_event e)
                  (e_command ++ e_keys ++ e_write))
    by by eapply (first_steps_not_dimmer py_float Key_getattr).
  assert (Hcb : (Callback deck_id <$> (Dimmer.reset d1).2)
                = if bool_decide (level ≠ Dimmer.brightness d)
                  then [Callback deck_id level] else []).
  { rewrite Hout. by destruct (bool_decide (level ≠ Dimmer.brightness d)). }
  rewrite Hcb. clear Hcb Hout.
  change (Dimmer.brightness d1) with level in Hb1, Hcur1.
  change (Dimmer.timeout d1) with (Dimmer.timeout d0) in Ht1.
  rewrite Ht0 in Ht1.
  set (d' := (Dimmer.reset d1).1.2) in *. clearbody d'. clear H5.
  destruct (bool_decide (switch_page a ≠ 0%Z)).
  - destruct (faults _ _ (ApiSetPage (target_device a) (switch_page a - 1)));
      eexists _, _, d', (e_command ++ e_keys ++ e_write),
        [ApiSetPage (target_device a) (switch_page a - 1)];
      (split; [reflexivity |]); simpl; rewrite ?Hlevel;
      (split_and!; try done; try apply clamp_range;
       try apply lookup_insert_eq;
       try (apply Forall_app; split; [done |];
            repeat constructor; simpl; tauto);
       by repeat (rewrite <- app_assoc || rewrite <- app_comm_cons)).
  - eexists _, _, d', (e_command ++ e_keys ++ e_write), [].
    split; [reflexivity |]. simpl. rewrite ?Hlevel.
    split_and!; try done; try apply clamp_range;
      try apply lookup_insert_eq.
    + rewrite ?app_nil_r.
      by repeat (rewrite <- app_assoc || rewrite <- app_comm_cons).
    + by rewrite app_nil_r.
Qed.

(** An event that follows events of the first three steps, or begins
    the last two, is not a callback call. *)
Lemma no_callback_first (front back : list event) deck_id level tail :
  Forall (fun e => ¬ dimmer_event e) front ->
  match back with
  | e :: _ => ¬ dimmer_event e
  | [] => True
  end ->
  front ++ back ≠ Callback deck_id level :: tail.
Proof.
  intros Hfront Hback Heq. destruct front as [| e front]; simpl in Heq.
  - subst back. by apply Hback.
  - injection Heq as -> _. apply Forall_cons in Hfront as [Hhead _].
    by apply Hhead.
Qed.

(** X12. A wake-up consumes one key press only. After the key-down event
    that woke the display, the dimmer of the deck is at its normal level,
    so the [reset()] of the next key-down event of the deck returns
    [False] and calls the callback with nothing: that event is not
    consumed. It attempts every step that is bound to its key, in the
    fixed order, and no callback call follows its reset. *)
Theorem wake_consumes_one_keypress deck_id key key' d s :
  dimmers s !! deck_id = Some d ->
  (Dimmer.reset d).1.1 = true ->
  let d1 := (Dimmer.reset d).1.2 in
  let a := buttons s deck_id (pages s deck_id) key' in
  ∃ s1 r s2 e_command e_keys e_write e_brightness e_page,
    handle_keypress py_float Key_getattr deck_id key true s
    = (Returned tt, s1)
    ∧ trace s1
      = trace s ++ [DimmerReset deck_id;
                    Callback deck_id (Dimmer.brightness d)]
    ∧ dimmers s1 !! deck_id = Some d1
    ∧ (Dimmer.reset d1).1.1 = false
    ∧ (Dimmer.reset d1).2 = []
    ∧ handle_keypress py_float Key_getattr deck_id key' true s1 = (r, s2)
    ∧ trace s2
      = trace s1 ++ [DimmerReset deck_id] ++ e_command ++ e_keys ++ e_write
        ++ e_brightness ++ e_page
    ∧ first_steps Key_getattr a s1 e_command e_keys e_write
    ∧ (if bool_decide (brightness_change a ≠ 0%Z)
       then ∃ rest,
              e_brightness
              = ApiChangeBrightness deck_id (brightness_change a) :: rest
              ∧ Forall brightness_event rest
       else e_brightness = [])
    ∧ e_page
      = (if bool_decide (switch_page a ≠ 0%Z)
         then [ApiSetPage (target_device a) (switch_page a - 1)]
         else [])
    ∧ (∀ level tail,
         e_command ++ e_keys ++ e_write ++ e_brightness ++ e_page
         ≠ Callback deck_id level :: tail).
Proof.
  intros Hd Hwoke d1 a.
  set (s1 := advance (put_dimmer deck_id d1 s) 0
               [DimmerReset deck_id; Callback deck_id (Dimmer.brightness d)]).
  assert (H1 : handle_keypress py_float Key_getattr deck_id key true s
               = (Returned tt, s1)).
  { unfold handle_keypress.
    erewrite bind_returned by (by apply dimmer_reset_spec).
    by rewrite Hwoke, reset_woke_out, Hwoke. }
  assert (Hd1 : dimmers s1 !! deck_id = Some d1) by apply lookup_insert_eq.
  pose proof (reset_brightness d) as (Hb & _ & Hcur). fold d1 in Hb, Hcur.
  assert (Hnormal : Dimmer.dimmer_brightness d1 = Dimmer.brightness d1)
    by by rewrite Hb, Hcur.
  destruct (reset_at_normal d1 Hnormal) as [Hfalse Hquiet].
  destruct (handle_keypress_first_steps py_float Key_getattr deck_id key' d1
              s1 Hd1 Hfalse)
    as (n & e_command & e_keys & e_write & Hrun & Hfirst).
  change (buttons s1 deck_id (pages s1 deck_id) key') with a in Hrun, Hfirst.
  change (pages s1 deck_id) with (pages s deck_id) in Hrun.
  match type of Hrun with
  | _ = bind _ _ ?s4 =>
      destruct (last_steps_spec deck_id (brightness_change a)
                  (pages s deck_id) key' s4)
        as (r & s2 & e_brightness & e_page & Hlast & Htrace & Hbrightness
            & Hpage & _)
  end.
  rewrite Hlast in Hrun.
  change (buttons _ deck_id (pages s deck_id) key') with a in Hpage.
  exists s1, r, s2, e_command, e_keys, e_write, e_brightness, e_page.
  split_and!; try done.
  - rewrite Htrace. simpl.
    by repeat (rewrite <- app_assoc || rewrite <- app_comm_cons).
  - intros level tail.
    rewrite (app_assoc e_command), (app_assoc (e_command ++ e_keys)).
    rewrite <- (app_assoc e_command).
    apply no_callback_first.
    + by eapply (first_steps_not_dimmer py_float Key_getattr).
    + destruct (bool_decide (brightness_change a ≠ 0%Z)).
      * destruct Hbrightness as (rest & -> & _). simpl. tauto.
      * subst e_brightness. simpl. rewrite Hpage.
        destruct (bool_decide (switch_page a ≠ 0%Z)); simpl; tauto.
Qed.

End DispatcherMore.

(** * The dimmers in the rest of the program *)

Section DimmersElsewhere.

Implicit Types (s : Sys) (d : Dimmer.t).

(** What [dim_all_displays] does to one deck. *)
Lemma dim_one_display deck_id d s :
  dimmers s !! deck_id = Some d ->
  (d <- the_dimmer deck_id ;;
   let '(d', out) := Dimmer.dim true d in
   s <- get ;;
   set_dimmers (<[deck_id := d']> (dimmers s)) ;;
   callbacks deck_id out)%py s
  = (Returned tt,
     advance (put_dimmer deck_id (Dimmer.dim true d).1 s) 0
       (Callback deck_id <$> (Dimmer.dim true d).2)).
Proof.
  intros Hd. unfold the_dimmer, bind, get. simpl. rewrite Hd. simpl.
  destruct (Dimmer.dim true d) as [d' out]. simpl.
  by rewrite callbacks_spec.
Qed.

(** X13. [dim_all_displays] applies [dim(True)] to the dimmer of every deck,
    once, in the order of the dictionary: afterwards each deck has the
    dimmer that [dim(True)] made of its own, the callback calls are those
    of the single dimmers, deck after deck, and nothing else changed. The
    order [deck_ids] lists every key of [dimmers] once. *)
Theorem dim_all_displays_dims_each (deck_ids : list string) s :
  NoDup deck_ids ->
  (∀ deck_id, deck_id ∈ deck_ids ↔ is_Some (dimmers s !! deck_id)) ->
  ∃ s',
    dim_all_displays deck_ids s = (Returned tt, s')
    ∧ dimmers s' = (fun d => (Dimmer.dim true d).1) <$> dimmers s
    ∧ trace s' = trace s ++ concat (dim_events (dimmers s) <$> deck_ids)
    ∧ pages s' = pages s ∧ levels s' = levels s ∧ clock s' = clock s.
Proof.
  intros Hnodup Hkeys.
  assert (Hgen : ∀ ids s0,
            NoDup ids ->
            (∀ k, k ∈ ids -> is_Some (dimmers s0 !! k)) ->
            ∃ s',
              dim_all_displays ids s0 = (Returned tt, s')
              ∧ (∀ k, dimmers s' !! k
                      = if bool_decide (k ∈ ids)
                        then (fun d => (Dimmer.dim true d).1)
                               <$> dimmers s0 !! k
                        else dimmers s0 !! k)
              ∧ trace s'
                = trace s0 ++ concat (dim_events (dimmers s0) <$> ids)
              ∧ pages s' = pages s0 ∧ levels s' = levels s0
              ∧ clock s' = clock s0).
  { clear. induction ids as [| id ids IH]; intros s0 Hnodup Hin.
    - exists s0. split_and!; try done. simpl. by rewrite app_nil_r.
    - apply NoDup_cons in Hnodup as [Hfresh Hnodup].
      destruct (Hin id) as [d Hd]; [by left |].
      set (s1 := advance (put_dimmer id (Dimmer.dim true d).1 s0) 0
                   (Callback id <$> (Dimmer.dim true d).2)).
      destruct (IH s1 Hnodup) as (s' & Hrun & Hds & Htrace & Hp & Hl & Hc).
      { intros k Hk. simpl.
        destruct (decide (k = id)) as [-> | Hne]; [done |].
        rewrite lookup_insert_ne by done. apply Hin. by right. }
      exists s'. split_and!; try done.
      + unfold dim_all_displays in *. cbn [for_each].
        erewrite bind_returned; [exact Hrun |].
        by apply dim_one_display.
      + intros k. rewrite Hds. simpl.
        destruct (decide (k = id)) as [-> | Hne].
        * rewrite (bool_decide_false (id ∈ ids)) by done.
          rewrite (bool_decide_true (id ∈ id :: ids)) by by left.
          by rewrite lookup_insert_eq, Hd.
        * rewrite lookup_insert_ne by done.
          destruct (decide (k ∈ ids)) as [Hk | Hk].
          -- rewrite (bool_decide_true (k ∈ ids)) by done.
             by rewrite (bool_decide_true (k ∈ id :: ids)) by by right.
          -- rewrite (bool_decide_false (k ∈ ids)) by done.
             rewrite (bool_decide_false (k ∈ id :: ids)); [done |].
             by intros [? | ?]%elem_of_cons.
      + rewrite Htrace. simpl. rewrite <- app_assoc. f_equal.
        unfold dim_events at 2. rewrite Hd. f_equal. f_equal.
        apply list_fmap_ext. intros i k Hk. unfold dim_events. simpl.
        rewrite lookup_insert_ne; [done |].
        intros ->. apply Hfresh. by eapply list_elem_of_lookup_2. }
  destruct (Hgen deck_ids s Hnodup) as (s' & Hrun & Hds & Hrest).
  { intros k Hk. by apply Hkeys. }
  destruct Hrest as (Htrace & Hp & Hl & Hc).
  exists s'. split_and!; try done.
  apply map_eq. intros k. rewrite Hds, lookup_fmap.
  destruct (decide (k ∈ deck_ids)) as [Hk | Hk].
  - by rewrite bool_decide_true.
  - rewrite bool_decide_false by done.
    destruct (dimmers s !! k) eqn:Hlookup; [| done].
    exfalso. apply Hk, Hkeys. by rewrite Hlookup.
Qed.

(** X14. When a deck is opened with a stored timeout for which [reset()]
    returns, one of 0 or of at most 2147483 s, [start] builds its dimmer
    from the stored timeout and brightness and resets it at once, which
    tells the display its brightness. So the dimmer of an opened deck is
    at its normal level, its idle timer runs exactly when the timeout is
    not 0, and the next [reset()], that of the first key press, reports
    no wake-up: the first key press is not swallowed. The dimmers of the
    other decks are untouched. *)
Theorem opened_deck_is_awake (display_timeout : Z) deck_id s :
  faults s (clock s) (ApiGetBrightness deck_id) = false ->
  levels s deck_id ≠ (-1)%Z ->
  Dimmer.reset_raises (Dimmer.new display_timeout (levels s deck_id))
  = false ->
  ∃ s' d,
    open_dimmer display_timeout deck_id s = (Returned tt, s')
    ∧ dimmers s' !! deck_id = Some d
    ∧ d = (Dimmer.reset (Dimmer.new display_timeout (levels s deck_id))).1.2
    ∧ Dimmer.brightness d = levels s deck_id
    ∧ Dimmer.dimmer_brightness d = levels s deck_id
    ∧ (Dimmer.running (Dimmer.timer d) = true ↔ display_timeout ≠ 0%Z)
    ∧ (Dimmer.reset d).1.1 = false
    ∧ trace s'
      = trace s ++ [ApiGetBrightness deck_id; DimmerReset deck_id;
                    Callback deck_id (levels s deck_id)]
    ∧ (∀ other, other ≠ deck_id ->
                dimmers s' !! other = dimmers s !! other).
Proof.
  intros Hfault Hlevel _.
  set (b := levels s deck_id).
  set (d0 := Dimmer.new display_timeout b).
  assert (Hout : (Dimmer.reset d0).2 = [b]).
  { unfold Dimmer.reset, d0. simpl.
    by rewrite (bool_decide_true (-1 ≠ b)%Z) by (intros Heq; by apply Hlevel). }
  pose proof (reset_brightness d0) as (Hb & _ & Hcur).
  eexists _, (Dimmer.reset d0).1.2. split_and!.
  - unfold open_dimmer.
    erewrite bind_returned by (by apply api_get_brightness_returns).
    unfold bind at 1. unfold get at 1. unfold bind at 1.
    unfold set_dimmers at 1.
    erewrite bind_returned; cycle 1.
    { apply (dimmer_reset_spec _ d0). apply lookup_insert_eq. }
    reflexivity.
  - apply lookup_insert_eq.
  - done.
  - done.
  - done.
  - unfold Dimmer.reset, d0. simpl.
    destruct (decide (display_timeout = 0%Z)) as [-> | Hne].
    + simpl. by destruct (bool_decide (-1 ≠ b)%Z).
    + rewrite (bool_decide_true (display_timeout ≠ 0%Z)) by done.
      by destruct (bool_decide (-1 ≠ b)%Z).
  - unfold Dimmer.reset at 1. rewrite Hb, Hcur.
    by rewrite (bool_decide_false (b ≠ b)) by tauto.
  - simpl. rewrite Hout. simpl.
    by repeat (rewrite <- app_assoc || rewrite <- app_comm_cons).
  - intros other Hother. simpl.
    rewrite insert_insert_eq. by rewrite lookup_insert_ne.
Qed.

End DimmersElsewhere.

(** * The main window and the grid of buttons *)

Section Window.

Import MainWindow.

(** X15. After any of its three operations the flag [window_shown] of the
    main window tells whether the window is visible, whatever the state
    before; from then on two clicks on the tray icon leave the window as
    it is, the first one hiding or showing it. Before the first
    operation the flag can be wrong: when the program starts without UI
    the window is hidden and the flag set, so the first click on the tray
    icon only clears the flag and the window stays hidden. *)
Theorem window_shown_tracks_visibility :
  (∀ o self, window_shown (exec o self).1 = visible (exec o self).1)
  ∧ (∀ os self, os ≠ [] ->
                window_shown (run os self) = visible (run os self))
  ∧ (∀ self, window_shown self = visible self ->
             visible (systray_clicked self).1 = negb (visible self)
             ∧ (systray_clicked (systray_clicked self).1).1 = self)
  ∧ window_shown (started true) = visible (started true)
  ∧ visible (systray_clicked (started false)).1 = false
  ∧ visible (systray_clicked (systray_clicked (started false)).1).1 = true.
Proof.
  assert (Hone : ∀ o self,
            window_shown (exec o self).1 = visible (exec o self).1).
  { intros [| |] [[|] [|]]; reflexivity. }
  split_and!; try done.
  - intros os. induction os as [| o os IH]; intros self Hne; [done |].
    simpl. destruct os as [| o' os]; [apply Hone |].
    by apply IH.
  - intros [[|] [|]] Hsync; simpl in Hsync; try done.
Qed.

Lemma build_row_spec (columns index : nat) (buttons : list nat) :
  build_row columns index buttons
  = ((index + columns)%nat, buttons ++ seq index columns, seq index columns).
Proof.
  unfold build_row.
  assert (Hgen : ∀ n k index buttons row,
            fold_left
              (fun '(index, buttons, column_layout) (_ : nat) =>
                 (S index, buttons ++ [index], column_layout ++ [index]))
              (seq k n) (index, buttons, row)
            = ((index + n)%nat, buttons ++ seq index n, row ++ seq index n)).
  { clear. induction n as [| n IH]; intros k index buttons row; simpl.
    - by rewrite Nat.add_0_r, !app_nil_r.
    - rewrite IH. rewrite <- !app_assoc. simpl. do 2 f_equal. lia. }
  by rewrite Hgen.
Qed.

(** X16. The buttons [build_buttons] makes for a deck of [rows] rows and
    [columns] columns have the indices 0, 1, ... below [rows] *
    [columns], each once and in this order; they are laid out in [rows]
    rows of [columns] buttons, so that the button in row [r] and column
    [c] has the index [r] * [columns] + [c]. *)
Theorem build_buttons_indices (rows columns : nat) :
  (build_buttons rows columns).1 = seq 0 (rows * columns)
  ∧ (build_buttons rows columns).2
    = (fun r => seq (r * columns) columns) <$> seq 0 rows
  ∧ ∀ r c, (r < rows)%nat -> (c < columns)%nat ->
           (build_buttons rows columns).2 !! r ≫= (.!! c)
           = Some (r * columns + c)%nat.
Proof.
  assert (Hgen : ∀ n k index buttons layout,
            fold_left
              (fun '(index, buttons, row_layout) (_ : nat) =>
                 let '(index', buttons', column_layout) :=
                   build_row columns index buttons in
                 (index', buttons', row_layout ++ [column_layout]))
              (seq k n) (index, buttons, layout)
            = ((index + n * columns)%nat,
               buttons ++ seq index (n * columns),
               layout
               ++ ((fun r => seq (index + r * columns) columns) <$> seq 0 n))).
  { induction n as [| n IH]; intros k index buttons layout; simpl.
    - by rewrite Nat.add_0_r, !app_nil_r.
    - rewrite build_row_spec, IH. rewrite <- !app_assoc.
      f_equal; [f_equal; [lia |] |].
      + f_equal. by rewrite seq_app.
      + f_equal. simpl. rewrite Nat.add_0_r. f_equal.
        rewrite <- fmap_S_seq, <- list_fmap_compose.
        apply list_fmap_ext. intros i r _. simpl. f_equal. lia. }
  assert (Hbuild : build_buttons rows columns
                   = (seq 0 (rows * columns),
                      (fun r => seq (r * columns) columns) <$> seq 0 rows)).
  { unfold build_buttons. by rewrite Hgen. }
  rewrite Hbuild. split_and!; try done.
  intros r c Hr Hc. simpl.
  rewrite list_lookup_fmap, lookup_seq_lt by done. simpl.
  by rewrite lookup_seq_lt by done.
Qed.

End Window.

(** * Examples *)

(** The sample of [Key] has no attribute named like a delay. *)
Lemma sample_Key_no_delay name v :
  sample_Key name = Some v ->
  startswith "delay" name = false ∧ is_delay v = false.
Proof.
  unfold sample_Key. case_bool_decide as Hin; [| done].
  intros [= <-]. split; [| done].
  repeat (apply elem_of_cons in Hin as [-> | Hin]; [done |]).
  by apply elem_of_nil in Hin.
Qed.

(** A key-down event on D1 while its display is dimmed to 48. *)
Lemma wake_consumes_keypress_witness :
  (Dimmer.reset dimmed).1.1 = true
  ∧ handle_keypress sample_float sample_Key "D1" 3 true
      (sample_sys dimmed sample_action no_fault)
    = (Returned tt,
       {| dimmers := <["D1" := (Dimmer.reset dimmed).1.2]> {["D1" := dimmed]};
          pages := fun _ => 0%Z; levels := fun _ => 50%Z;
          buttons := fun _ _ _ => sample_action;
          faults := no_fault; clock := 0;
          trace := [DimmerReset "D1"; Callback "D1" 50] |}).
Proof.
  split; [reflexivity |].
  apply (wake_consumes_keypress sample_float sample_Key "D1" 3 dimmed
           (sample_sys dimmed sample_action no_fault)).
  - apply lookup_singleton_eq.
  - reflexivity.
Defined.

(** [reset()] of the dimmed dimmer. *)
Lemma reset_spec_witness :
  Dimmer.running (Dimmer.timer (Dimmer.reset dimmed).1.2) = true
  ∧ Dimmer.running (Dimmer.change_timer (Dimmer.reset dimmed).1.2) = false
  ∧ Dimmer.stopped (Dimmer.reset dimmed).1.2 = false
  ∧ (Dimmer.reset dimmed).1.1 = true
  ∧ (Dimmer.reset dimmed).2 = [50%Z]
  ∧ Dimmer.dimmer_brightness (Dimmer.reset dimmed).1.2 = 50%Z.
Proof.
  destruct (reset_spec dimmed true (Dimmer.reset dimmed).1.2 [50%Z])
    as (Hramp & _ & Hstopped & Hidle & _ & _ & Hwoke & Hout & _ & Hcur & _).
  - reflexivity.
  - reflexivity.
  - split_and!; try done;
      first [by apply Hidle | by apply Hout | by apply Hwoke].
Defined.

(** C2, as the spec words it, fails in two ways. The code tests the
    truth value of the timeout, not its sign: [reset()] of a dimmer with
    a timeout of -5 arms the idle timer. And [reset()] does not return
    for every dimmer: with a timeout of 2147484 s it raises. *)
Lemma reset_arms_negative_timeout :
  ¬ (0 < Dimmer.timeout (Dimmer.new (-5) 50))%Z
  ∧ Dimmer.reset_raises (Dimmer.new (-5) 50) = false
  ∧ Dimmer.running (Dimmer.timer (Dimmer.reset (Dimmer.new (-5) 50)).1.2)
    = true
  ∧ Dimmer.timer (Dimmer.reset (Dimmer.new (-5) 50)).1.2
    = Some (QTimer.armed (-5000))
  ∧ Dimmer.reset_raises (Dimmer.new 2147484 50) = true.
Proof. split_and!; [simpl; lia | reflexivity ..]. Qed.

(** The first [reset()] of [Dimmer(10, 50, callback)]. *)
Lemma first_reset_wakes_witness :
  (Dimmer.reset (Dimmer.new 10 50)).1.1 = true
  ∧ (Dimmer.reset (Dimmer.new 10 50)).2 = [50%Z].
Proof.
  destruct (first_reset_wakes 10 50) as (_ & Hwoke & Hout & _);
    [lia | reflexivity |].
  by split.
Defined.

(** C9, as the spec words it, fails for a dimmer whose timeout is too
    long for the timer: the first [reset()] of [Dimmer(2147484, 50,
    callback)] raises before it calls the callback; with a timeout of
    2147483 s it returns. *)
Lemma first_reset_overflows :
  (0 <= 50 <= 100)%Z
  ∧ Dimmer.reset_raises (Dimmer.new 2147484 50) = true
  ∧ QTimer.fits (2147484 * 1000) = false
  ∧ Dimmer.reset_raises (Dimmer.new 2147483 50) = false.
Proof. split; [lia | split_and!; reflexivity]. Qed.

(** A reset, the expiry of the idle timer and one ramp tick. *)
Lemma brightness_stays_in_range_witness :
  Dimmer.run [Dimmer.Reset; Dimmer.IdleTimeout; Dimmer.RampTick]
    (Dimmer.new 10 50) = Some (dimmed, [50; 49; 48]%Z)
  ∧ (0 <= Dimmer.dimmer_brightness dimmed <= 50)%Z
  ∧ Forall level_ok [50; 49; 48]%Z.
Proof.
  split; [reflexivity |].
  destruct (brightness_stays_in_range 10 50
              [Dimmer.Reset; Dimmer.IdleTimeout; Dimmer.RampTick]
              dimmed [50; 49; 48]%Z) as ([Hnew | Hrange] & Hout & _).
  - lia.
  - reflexivity.
  - discriminate Hnew.
  - by split.
Defined.

(** C8, as the spec words it, fails on a dimmer that was just
    constructed, before any operation: its current level is -1, not
    within 0-100. *)
Lemma brightness_initially_out_of_range :
  Dimmer.run [] (Dimmer.new 10 50) = Some (Dimmer.new 10 50, [])
  ∧ Dimmer.dimmer_brightness (Dimmer.new 10 50) = (-1)%Z
  ∧ ¬ (0 <= Dimmer.dimmer_brightness (Dimmer.new 10 50) <= 100)%Z.
Proof. split_and!; [done | done |]. simpl. lia. Qed.

(** C4, as the spec words it, fails on the segment "a+delay": it does not
    start with "delay", and yet its second token is a delay, so the
    dispatcher sleeps between the press and the release of "a". It fails
    on "delay+a" too: the segment starts with "delay" and is not one
    delay token, a key is pressed and released after the sleep. *)
Lemma sleep_inside_key_section :
  startswith "delay" (lower "a+delay") = false
  ∧ trace (run_section sample_float sample_Key "a+delay"
             (sample_sys awake sample_action no_fault)).2
    = [Press (KStr "a"); Sleep (PFloat 0.5); Release (KStr "a")]
  ∧ startswith "delay" (lower "delay+a") = true
  ∧ trace (run_section sample_float sample_Key "delay+a"
             (sample_sys awake sample_action no_fault)).2
    = [Sleep (PFloat 0.5); Press (KStr "a"); Release (KStr "a")].
Proof. split_and!; reflexivity. Qed.

(** With every press failing, the macro "ctrl+a,b" still attempts each
    press and each release, section by section. *)
Lemma failed_presses_are_released :
  trace (run_keys sample_float sample_Key "ctrl+a,b"
           (sample_sys awake sample_action press_fault)).2
  = [Press (KAttr "ctrl"); Print (PressFailed (KAttr "ctrl"));
     Press (KStr "a"); Print (PressFailed (KStr "a"));
     Release (KAttr "ctrl"); Release (KStr "a");
     Press (KStr "b"); Print (PressFailed (KStr "b"));
     Release (KStr "b")].
Proof. reflexivity. Qed.

(** The segment "a+delay" with the sample of [Key]. *)
Lemma delay_is_per_token_witness :
  Forall2 (fun token k => is_delay k = startswith "delay" (lower token))
    ["a"; "delay"] [KStr "a"; KStr "delay"]
  ∧ ∃ evss tr,
      emits (run_section sample_float sample_Key "a+delay")
        (sample_sys awake sample_action no_fault) tt (concat evss ++ tr)
      ∧ Forall2 press_phase [KStr "a"; KStr "delay"] evss
      ∧ presses tr = [] ∧ sleeps tr = [].
Proof.
  destruct (delay_is_per_token sample_float sample_Key sample_Key_no_delay
              "a+delay" (sample_sys awake sample_action no_fault))
    as (Htokens & _ & Hrun).
  split; [exact Htokens | exact Hrun].
Defined.


(** C6, as the spec words it, fails on the page switch: when
    [api.set_page] raises, nothing catches the exception and the
    dispatcher itself raises. Here no other call fails, every step ran,
    and the call of [api.set_page] is the last event. *)
Lemma page_switch_failure_escapes :
  (Dimmer.reset awake).1.1 = false
  ∧ (handle_keypress sample_float sample_Key "D1" 3 true
       (sample_sys awake sample_action set_page_fault)).1 = Raised
  ∧ trace (handle_keypress sample_float sample_Key "D1" 3 true
             (sample_sys awake sample_action set_page_fault)).2
    = [DimmerReset "D1"; Popen "firefox";
       Press (KAttr "ctrl"); Press (KAttr "shift"); Press (KStr "a");
       Release (KAttr "ctrl"); Release (KAttr "shift"); Release (KStr "a");
       Sleep (PFloat 1.5); Press (KStr "b"); Release (KStr "b");
       TypeText "hello"; ApiChangeBrightness "D1" 10; ApiGetBrightness "D1";
       DimmerReset "D1"; Callback "D1" 60; ApiSetPage "D2" 1].
Proof. split_and!; vm_compute; reflexivity. Qed.

(** A key-down event on D1, awake, where no call fails. *)
Lemma steps_attempted_in_order_witness :
  ∃ s' e_command e_keys e_write e_brightness,
    handle_keypress sample_float sample_Key "D1" 3 true
      (sample_sys awake sample_action no_fault) = (Returned tt, s')
    ∧ trace s'
      = [DimmerReset "D1"] ++ e_command ++ e_keys ++ e_write
        ++ e_brightness ++ [ApiSetPage "D2" 1]
    ∧ first_steps sample_Key sample_action
        (sample_sys awake sample_action no_fault) e_command e_keys e_write.
Proof.
  destruct (steps_attempted_in_order sample_float sample_Key "D1" 3 awake
              (sample_sys awake sample_action no_fault))
    as (r & s' & e_command & e_keys & e_write & e_brightness & e_page
        & Hrun & Htrace & Hfirst & _ & Hpage & Hr).
  - apply lookup_singleton_eq.
  - reflexivity.
  - exists s', e_command, e_keys, e_write, e_brightness.
    simpl in Hpage, Hr, Hfirst, Htrace. subst r e_page. by split_and!.
Defined.

(** A key-down event on D1, awake, where [api.change_brightness]
    raises. *)
Lemma brightness_failure_keeps_dimmer_witness :
  ∃ s',
    handle_keypress sample_float sample_Key "D1" 3 true
      (sample_sys awake sample_action change_brightness_fault)
    = (Returned tt, s')
    ∧ dimmers s' !! "D1" = Some awake
    ∧ pages s' "D2" = 1%Z.
Proof.
  destruct (brightness_failure_keeps_dimmer sample_float sample_Key "D1" 3
              awake (sample_sys awake sample_action change_brightness_fault))
    as (r & s' & before & e_page & Hrun & Hdimmers & _ & _ & _ & _ & Hr
        & Hpages).
  - apply lookup_singleton_eq.
  - reflexivity.
  - done.
  - by left.
  - simpl in Hr, Hpages, Hdimmers. subst r. exists s'. split_and!.
    + exact Hrun.
    + rewrite Hdimmers. apply lookup_insert_eq.
    + by apply Hpages.
Defined.

(** The dimmer after [sample_uses]: the ramp runs, the idle timer does
    not. *)
Lemma timers_never_overlap_witness :
  use_run sample_uses (Dimmer.new 10 50)
  = Some (sample_used, [50; 60; 59; 58; 60; 59]%Z)
  ∧ Dimmer.running (Dimmer.change_timer sample_used) = true
  ∧ timers_ok sample_used.
Proof.
  assert (Hrun : use_run sample_uses (Dimmer.new 10 50)
                 = Some (sample_used, [50; 60; 59; 58; 60; 59]%Z))
    by (vm_compute; reflexivity).
  split; [exact Hrun |]. split; [reflexivity |].
  exact (timers_never_overlap 10 50 sample_uses sample_used
           [50; 60; 59; 58; 60; 59]%Z Hrun).
Defined.

(** The levels the display was told during [sample_uses], and the level
    the dimmer holds in the end. *)
Lemma display_in_sync_witness :
  use_run sample_uses (Dimmer.new 10 50)
  = Some (sample_used, [50; 60; 59; 58; 60; 59]%Z)
  ∧ Dimmer.dimmer_brightness sample_used
    = default (-1)%Z (last [50; 60; 59; 58; 60; 59]%Z).
Proof.
  assert (Hrun : use_run sample_uses (Dimmer.new 10 50)
                 = Some (sample_used, [50; 60; 59; 58; 60; 59]%Z))
    by (vm_compute; reflexivity).
  split; [exact Hrun |].
  exact (display_in_sync 10 50 sample_uses sample_used
           [50; 60; 59; 58; 60; 59]%Z Hrun).
Defined.

(** The fade of a display at level 3. *)
Lemma ramp_runs_to_floor_witness :
  ∃ d,
    Dimmer.run
      [Dimmer.IdleTimeout; Dimmer.RampTick; Dimmer.RampTick; Dimmer.RampTick]
      (counting 10 3)
    = Some (d, [2; 1; 0]%Z)
    ∧ Dimmer.running (Dimmer.timer d) = false
    ∧ Dimmer.running (Dimmer.change_timer d) = false.
Proof.
  destruct (ramp_runs_to_floor 10 3 2) as [Hrun _]; [reflexivity |].
  eexists. split; [exact Hrun |]. by split.
Defined.

(** Dimming a display at level 3 from the tray menu, and waking it from
    there when the ramp has ended. *)
Lemma toggle_round_trip_witness :
  Dimmer.run
    [Dimmer.Dim true; Dimmer.RampTick; Dimmer.RampTick; Dimmer.RampTick;
     Dimmer.Dim true]
    (counting 10 3)
  = Some (counting 10 3, [2; 1; 0; 3]%Z)
  ∧ Dimmer.dim true (Dimmer.reset dimmed).1.2
    = (Dimmer.stop_idle (Dimmer.reset dimmed).1.2, []).
Proof.
  split.
  - destruct (toggle_round_trip (counting 10 3) 2) as [Hround _];
      [reflexivity | reflexivity | simpl; lia | reflexivity | reflexivity
      | reflexivity |].
    exact (Hround eq_refl).
  - destruct (toggle_round_trip (Dimmer.reset dimmed).1.2 49)
      as [_ Hstale];
      [reflexivity | reflexivity | simpl; lia | reflexivity | reflexivity
      | reflexivity |].
    destruct Hstale as [Hdim _]; [done | exact Hdim].
Defined.

(** A dimmer with the timeout "never", at level 50. *)
Lemma no_timeout_no_dimming_witness :
  Dimmer.exec Dimmer.IdleTimeout (Dimmer.reset (Dimmer.new 0 50)).1.2 = None
  ∧ Dimmer.dim true (Dimmer.reset (Dimmer.new 0 50)).1.2
    = ((Dimmer.reset (Dimmer.new 0 50)).1.2, []).
Proof.
  destruct (no_timeout_no_dimming (Dimmer.new 0 50))
    as (_ & _ & Hidle & _ & Hdim); [reflexivity |].
  split; [exact Hidle |]. apply Hdim. simpl. lia.
Defined.

(** Key events of D2, which has no dimmer. *)
Lemma keypress_without_dimmer_witness :
  handle_keypress sample_float sample_Key "D2" 3 true
    (sample_sys awake sample_action no_fault)
  = (Raised, sample_sys awake sample_action no_fault)
  ∧ handle_keypress sample_float sample_Key "D2" 3 false
      (sample_sys awake sample_action no_fault)
    = (Returned tt, sample_sys awake sample_action no_fault).
Proof.
  split.
  - by apply (keypress_without_dimmer sample_float sample_Key "D2" 3 true).
  - by apply (keypress_without_dimmer sample_float sample_Key "D2" 3 false).
Defined.

(** A key of D1 that switches D2 to its second page. *)
Lemma page_switch_sets_target_page_witness :
  ∃ s',
    handle_keypress sample_float sample_Key "D1" 3 true
      (sample_sys awake sample_action no_fault) = (Returned tt, s')
    ∧ pages s' "D2" = 1%Z
    ∧ pages s' "D1" = 0%Z.
Proof.
  destruct (page_switch_sets_target_page sample_float sample_Key "D1" 3
              awake (sample_sys awake sample_action no_fault))
    as (r & s' & Hrun & _ & Hpage).
  - apply lookup_singleton_eq.
  - reflexivity.
  - destruct Hpage as [Hreturns Hpages]; [done |].
    assert (Hr : r = Returned tt) by (by apply Hreturns).
    destruct (Hpages Hr) as [Htarget Hother]. subst r.
    exists s'. split_and!; [exact Hrun | exact Htarget | by apply Hother].
Defined.

(** A key of D1 that raises the brightness by 10, from 50. *)
Lemma brightness_change_applied_witness :
  ∃ r s' d',
    handle_keypress sample_float sample_Key "D1" 3 true
      (sample_sys awake sample_action no_fault) = (r, s')
    ∧ dimmers s' !! "D1" = Some d'
    ∧ levels s' "D1" = 60%Z
    ∧ Dimmer.brightness d' = 60%Z
    ∧ Dimmer.dimmer_brightness d' = 60%Z.
Proof.
  destruct (brightness_change_applied sample_float sample_Key "D1" 3
              awake (sample_sys awake sample_action no_fault))
    as (r & s' & d' & before & after & Hrun & Hd' & Hlevel & _ & Hb & Hcur
        & _).
  - apply lookup_singleton_eq.
  - reflexivity.
  - simpl. lia.
  - intros n. reflexivity.
  - intros n. reflexivity.
  - simpl in Hlevel. exists r, s', d'.
    split; [exact Hrun |]. split; [exact Hd' |]. split; [exact Hlevel |].
    split.
    + rewrite Hb. exact Hlevel.
    + rewrite Hcur. exact Hlevel.
Defined.

(** Two key-down events on D1 while its display is dimmed to 48. *)
Lemma wake_consumes_one_keypress_witness :
  ∃ s1 r s2 rest,
    handle_keypress sample_float sample_Key "D1" 3 true
      (sample_sys dimmed sample_action no_fault) = (Returned tt, s1)
    ∧ trace s1 = [DimmerReset "D1"; Callback "D1" 50]
    ∧ handle_keypress sample_float sample_Key "D1" 4 true s1 = (r, s2)
    ∧ trace s2
      = [DimmerReset "D1"; Callback "D1" 50; DimmerReset "D1";
         Popen "firefox"] ++ rest.
Proof.
  destruct (wake_consumes_one_keypress sample_float sample_Key "D1" 3 4
              dimmed (sample_sys dimmed sample_action no_fault))
    as (s1 & r & s2 & e_command & e_keys & e_write & e_brightness & e_page
        & Hrun1 & Htrace1 & _ & _ & _ & Hrun2 & Htrace2
        & (Hcommand & _) & _).
  - apply lookup_singleton_eq.
  - reflexivity.
  - exists s1, r, s2, (e_keys ++ e_write ++ e_brightness ++ e_page).
    split; [exact Hrun1 |]. split; [exact Htrace1 |].
    split; [exact Hrun2 |].
    rewrite Htrace2, Htrace1, Hcommand. simpl.
    assert (Hfault : faults s1 (clock s1) (Popen "firefox") = false).
    { pose proof (f_equal (fun p => faults p.2) Hrun1) as Hf.
      simpl in Hf. rewrite <- Hf. reflexivity. }
    by rewrite Hfault.
Defined.

(** Dimming both displays of [two_decks] from the tray menu: D1 starts
    to dim, D2 goes on dimming. *)
Lemma dim_all_displays_dims_each_witness :
  ∃ s',
    dim_all_displays ["D1"; "D2"] two_decks = (Returned tt, s')
    ∧ dimmers s' !! "D1" = Some (Dimmer.dim true awake).1
    ∧ dimmers s' !! "D2" = Some (Dimmer.dim true dimmed).1
    ∧ trace s' = [Callback "D1" 49].
Proof.
  destruct (dim_all_displays_dims_each ["D1"; "D2"] two_decks)
    as (s' & Hrun & Hdimmers & Htrace & _).
  - apply NoDup_cons. split; [| apply NoDup_singleton].
    by intros [= ]%list_elem_of_singleton.
  - intros deck_id. unfold two_decks. simpl.
    rewrite !elem_of_cons, elem_of_nil.
    destruct (decide (deck_id = "D2")) as [-> | Hne2].
    + rewrite lookup_insert_eq. split; [by eexists | by right; left].
    + rewrite lookup_insert_ne by done.
      destruct (decide (deck_id = "D1")) as [-> | Hne1].
      * rewrite lookup_singleton_eq. split; [by eexists | by left].
      * rewrite lookup_singleton_ne by done.
        split; [by intros [? | [? | []]] | by intros [? ?]].
  - exists s'. split_and!.
    + exact Hrun.
    + rewrite Hdimmers, lookup_fmap. unfold two_decks. simpl.
      rewrite lookup_insert_ne by done. by rewrite lookup_singleton_eq.
    + rewrite Hdimmers, lookup_fmap. unfold two_decks. simpl.
      by rewrite lookup_insert_eq.
    + rewrite Htrace. reflexivity.
Defined.

(** Opening the deck D2 at start-up, with a display timeout of 10 s and
    a stored brightness of 50. *)
Lemma opened_deck_is_awake_witness :
  ∃ s',
    open_dimmer 10 "D2" (sample_sys awake sample_action no_fault)
    = (Returned tt, s')
    ∧ dimmers s' !! "D2" = Some awake
    ∧ dimmers s' !! "D1" = Some awake
    ∧ trace s' = [ApiGetBrightness "D2"; DimmerReset "D2"; Callback "D2" 50].
Proof.
  destruct (opened_deck_is_awake 10 "D2"
              (sample_sys awake sample_action no_fault))
    as (s' & d & Hrun & Hd & Heq & _ & _ & _ & _ & Htrace & Hother).
  - reflexivity.
  - done.
  - reflexivity.
  - exists s'. split_and!.
    + exact Hrun.
    + by rewrite Hd, Heq.
    + rewrite Hother by done. apply lookup_singleton_eq.
    + exact Htrace.
Defined.
